(** * Document layout of diva.js (document-layout.js)

    A shallow embedding of [getDocumentLayout] and its helpers.  JavaScript
    numbers are modelled as rationals [Q] (rounding of floating point is not
    modelled); [Math.floor] is [Qfloor] and [Math.max] is [Math_max].  A
    thrown exception (reading a property of [undefined]) is modelled as
    [None] in the [option] monad; a JS array indexed by a number is a [list]
    read with [nth_error]. *)

From Stdlib Require Import QArith Qround Qminmax Lqa List Arith ZArith Lia Sorted.
Import ListNotations.

Open Scope Q_scope.

(** ** Data model *)

(** Raw dimension data of a page at one zoom level: [{w, h}]. *)
Module PageData.
Record t := mk { w : Q; h : Q }.
End PageData.

(** A page of the manifest: [d] is indexed by zoom level. *)
Module Page.
Record t := mk { d : list PageData.t; paged : bool }.
End Page.

Module Manifest.
Record t := mk { pages : list Page.t; paged : bool }.
End Manifest.

(** [{width, height}] as returned by [getPageDimensions]. *)
Module Dims.
Record t := mk { width : Q; height : Q }.
End Dims.

(** [extend({index: index}, pageDims)]: a pending page in book layout. *)
Module IndexedPage.
Record t := mk { index : nat; width : Q; height : Q }.
End IndexedPage.

Module PageOffset.
Record t := mk { index : nat; top : Q; left : Q }.
End PageOffset.

(** A layout group: [{height, width, pageOffsets}]. *)
Module Layout.
Record t := mk { height : Q; width : Q; pageOffsets : list PageOffset.t }.
End Layout.

Module Region.
Record t := mk { top : Q; bottom : Q; left : Q; right : Q }.
End Region.

Module PagePadding.
Record t := mk { top : Q; left : Q }.
End PagePadding.

Module DocPadding.
Record t := mk { top : Q; right : Q; bottom : Q; left : Q }.
End DocPadding.

Module Padding.
Record t := mk { page : PagePadding.t; document : DocPadding.t }.
End Padding.

Module Config.
Record t := mk {
  manifest : Manifest.t;
  zoomLevel : nat;
  verticallyOriented : bool;
  inBookLayout : bool;
  padding : Padding.t }.
End Config.

Module PageGroup.
Record t := mk {
  index : nat;
  layout : Layout.t;
  region : Region.t;
  padding : PagePadding.t }.
End PageGroup.

Module DocumentLayout.
Record t := mk { dimensions : Dims.t; pageGroups : list PageGroup.t }.
End DocumentLayout.

(** ** JavaScript primitives *)

(** [Math.max(a, b)] on non-NaN numbers. *)
Definition Math_max (a b : Q) : Q := if Qlt_le_dec a b then b else a.

(** [Math.floor(x)]. *)
Definition Math_floor (x : Q) : Q := inject_Z (Qfloor x).

(** [arr.forEach(function (x, index) {...})] threading the state that the
    callback mutates. *)
Fixpoint forEach_from {A St : Type} (f : St -> A -> nat -> St)
    (l : list A) (index : nat) (s : St) : St :=
  match l with
  | [] => s
  | x :: l' => forEach_from f l' (S index) (f s x index)
  end.

Definition forEach {A St : Type} (f : St -> A -> nat -> St) (l : list A) (s : St) : St :=
  forEach_from f l 0 s.

(** The same with a callback that may throw. *)
Fixpoint forEachM_from {A St : Type} (f : St -> A -> nat -> option St)
    (l : list A) (index : nat) (s : St) : option St :=
  match l with
  | [] => Some s
  | x :: l' =>
      match f s x index with
      | Some s' => forEachM_from f l' (S index) s'
      | None => None
      end
  end.

Definition forEachM {A St : Type} (f : St -> A -> nat -> option St) (l : list A) (s : St) :
    option St :=
  forEachM_from f l 0 s.

(** [arr.map(function (x, i) {...})] with a callback that may throw. *)
Fixpoint mapM_from {A B : Type} (f : A -> nat -> option B) (l : list A) (i : nat) :
    option (list B) :=
  match l with
  | [] => Some []
  | x :: l' =>
      match f x i with
      | Some y =>
          match mapM_from f l' (S i) with
          | Some ys => Some (y :: ys)
          | None => None
          end
      | None => None
      end
  end.

(** ** getPageDimensions *)

(** [options] is [undefined] ([None]) or an object whose [round] field is
    [undefined] ([Some None]) or a boolean ([Some (Some b)]).
    [var round = !options || options.round;] *)
Definition round_of (options : option (option bool)) : bool :=
  match options with
  | None => true
  | Some r => match r with Some b => b | None => false end
  end.

Definition getPageDimensions (pageIndex : nat) (manifest : Manifest.t)
    (zoomLevel : nat) (options : option (option bool)) : option Dims.t :=
  match nth_error (Manifest.pages manifest) pageIndex with
  | None => None
  | Some page =>
      match nth_error (Page.d page) zoomLevel with
      | None => None
      | Some pageData =>
          let width := Math_floor (PageData.w pageData) in
          let height := Math_floor (PageData.h pageData) in
          if round_of options
          then Some (Dims.mk (Math_floor width) (Math_floor height))
          else Some (Dims.mk width height)
      end
  end.

(** ** getSinglesLayoutGroups *)

Definition getSinglesLayoutGroups (manifest : Manifest.t) (zoomLevel : nat) :
    option (list Layout.t) :=
  mapM_from (fun _ i =>
      match getPageDimensions i manifest zoomLevel None with
      | Some pageDims =>
          Some (Layout.mk (Dims.height pageDims) (Dims.width pageDims)
                  [PageOffset.mk i 0 0])
      | None => None
      end)
    (Manifest.pages manifest) 0.

(** ** getFacingPageGroup *)

Definition getFacingPageGroup (leftPage rightPage : IndexedPage.t)
    (verticallyOriented : bool) : Layout.t :=
  let height := Math_max (IndexedPage.height leftPage) (IndexedPage.height rightPage) in
  let '(width, firstLeftOffset, secondLeftOffset) :=
    if verticallyOriented then
      let midWidth := Math_max (IndexedPage.width leftPage) (IndexedPage.width rightPage) in
      (midWidth * 2, midWidth - IndexedPage.width leftPage, midWidth)
    else
      (IndexedPage.width leftPage + IndexedPage.width rightPage, 0,
       IndexedPage.width leftPage)
  in
  Layout.mk height width
    [PageOffset.mk (IndexedPage.index leftPage) 0 firstLeftOffset;
     PageOffset.mk (IndexedPage.index rightPage) 0 secondLeftOffset].

(** ** getBookLayoutGroups *)

(** The variables [groups] and [leftPage] mutated by the [forEach] callback. *)
Module BookState.
Record t := mk { groups : list Layout.t; leftPage : option IndexedPage.t }.
End BookState.

(** One call of the [forEach] callback on [(page, index)]. *)
Definition bookStep (manifest : Manifest.t) (zoomLevel : nat)
    (verticallyOriented : bool) (st : BookState.t) (page : Page.t) (index : nat) :
    option BookState.t :=
  let groups := BookState.groups st in
  let leftPage := BookState.leftPage st in
  if Manifest.paged manifest && negb (Page.paged page) then Some st
  else
    match getPageDimensions index manifest zoomLevel (Some (Some false)) with
    | None => None
    | Some pageDims =>
        if verticallyOriented && Nat.eqb index 0 then
          Some (BookState.mk
                  (groups ++ [Layout.mk (Dims.height pageDims) (Dims.width pageDims * 2)
                                [PageOffset.mk 0 0 (Dims.width pageDims)]])
                  leftPage)
        else
          match leftPage with
          | None =>
              Some (BookState.mk groups
                      (Some (IndexedPage.mk index (Dims.width pageDims)
                                            (Dims.height pageDims))))
          | Some lp =>
              Some (BookState.mk
                      (groups ++ [getFacingPageGroup lp
                                    (IndexedPage.mk index (Dims.width pageDims)
                                                    (Dims.height pageDims))
                                    verticallyOriented])
                      None)
          end
    end.

(** Flush a final left page. *)
Definition flushLeftPage (verticallyOriented : bool) (st : BookState.t) : list Layout.t :=
  match BookState.leftPage st with
  | None => BookState.groups st
  | Some lp =>
      BookState.groups st ++
        [Layout.mk (IndexedPage.height lp)
           (if verticallyOriented then IndexedPage.width lp * 2 else IndexedPage.width lp)
           [PageOffset.mk (IndexedPage.index lp) 0 0]]
  end.

Definition getBookLayoutGroups (manifest : Manifest.t) (zoomLevel : nat)
    (verticallyOriented : bool) : option (list Layout.t) :=
  match forEachM (bookStep manifest zoomLevel verticallyOriented)
          (Manifest.pages manifest) (BookState.mk [] None) with
  | None => None
  | Some st => Some (flushLeftPage verticallyOriented st)
  end.

(** ** getExtentAlongSecondaryAxis *)

(** [layout[secondaryDim]] *)
Definition secondaryDimOf (verticallyOriented : bool) (layout : Layout.t) : Q :=
  if verticallyOriented then Layout.width layout else Layout.height layout.

Definition secondaryPaddingOf (config : Config.t) : Q :=
  let docPadding := Padding.document (Config.padding config) in
  if Config.verticallyOriented config
  then DocPadding.left docPadding + DocPadding.right docPadding
  else DocPadding.top docPadding + DocPadding.bottom docPadding.

Definition getExtentAlongSecondaryAxis (layouts : list Layout.t) (config : Config.t) : Q :=
  secondaryPaddingOf config +
    fold_left (fun maxDim layout =>
                 Math_max (secondaryDimOf (Config.verticallyOriented config) layout) maxDim)
              layouts 0.

(** ** getDocumentLayout *)

(** The variables [primaryDocPosition] and [pageGroups] mutated by the
    [layouts.forEach] callback. *)
Module DocState.
Record t := mk { primaryDocPosition : Q; pageGroups : list PageGroup.t }.
End DocState.

(** One call of the [layouts.forEach] callback on [(layout, index)]. *)
Definition placeLayout (verticallyOriented : bool) (documentSecondaryExtent : Q)
    (pagePadding : PagePadding.t) (st : DocState.t) (layout : Layout.t) (index : nat) :
    DocState.t :=
  let primaryDocPosition := DocState.primaryDocPosition st in
  let top := if verticallyOriented then primaryDocPosition
             else (documentSecondaryExtent - Layout.height layout) / 2 in
  let left := if verticallyOriented then (documentSecondaryExtent - Layout.width layout) / 2
              else primaryDocPosition in
  let region := Region.mk top (top + PagePadding.top pagePadding + Layout.height layout)
                          left (left + PagePadding.left pagePadding + Layout.width layout) in
  DocState.mk
    (if verticallyOriented then Region.bottom region else Region.right region)
    (DocState.pageGroups st ++ [PageGroup.mk index layout region pagePadding]).

Definition getLayoutGroups (config : Config.t) : option (list Layout.t) :=
  if Config.inBookLayout config
  then getBookLayoutGroups (Config.manifest config) (Config.zoomLevel config)
         (Config.verticallyOriented config)
  else getSinglesLayoutGroups (Config.manifest config) (Config.zoomLevel config).

Definition getDocumentLayout (config : Config.t) : option DocumentLayout.t :=
  match getLayoutGroups config with
  | None => None
  | Some layouts =>
      let documentSecondaryExtent := getExtentAlongSecondaryAxis layouts config in
      let pagePadding :=
        PagePadding.mk (PagePadding.top (Padding.page (Config.padding config)))
                       (PagePadding.left (Padding.page (Config.padding config))) in
      let st := forEach (placeLayout (Config.verticallyOriented config)
                           documentSecondaryExtent pagePadding)
                        layouts (DocState.mk 0 []) in
      let primaryDocPosition := DocState.primaryDocPosition st in
      let '(height, width) :=
        if Config.verticallyOriented config
        then (primaryDocPosition + PagePadding.top pagePadding, documentSecondaryExtent)
        else (documentSecondaryExtent, primaryDocPosition + PagePadding.left pagePadding) in
      Some (DocumentLayout.mk (Dims.mk width height) (DocState.pageGroups st))
  end.

(** Sample inputs. *)
Definition page100x200 : Page.t := Page.mk [PageData.mk 100 200] true.

Definition mkConfig (pages : list Page.t) (paged vert book : bool)
    (pageTop pageLeft docTop docRight docBottom docLeft : Q) : Config.t :=
  Config.mk (Manifest.mk pages paged) 0 vert book
    (Padding.mk (PagePadding.mk pageTop pageLeft)
                (DocPadding.mk docTop docRight docBottom docLeft)).

(** Leading and trailing edges of a region along the primary axis. *)
Definition leadingEdge (verticallyOriented : bool) (r : Region.t) : Q :=
  if verticallyOriented then Region.top r else Region.left r.

Definition trailingEdge (verticallyOriented : bool) (r : Region.t) : Q :=
  if verticallyOriented then Region.bottom r else Region.right r.

(** The offset of a region along the secondary axis. *)
Definition secondaryOffset (verticallyOriented : bool) (r : Region.t) : Q :=
  if verticallyOriented then Region.left r else Region.top r.

(** ** Generic facts on the loops *)

Lemma forEach_from_invariant {A St : Type} (P : St -> Prop)
    (f : St -> A -> nat -> St) :
  (forall s x i, P s -> P (f s x i)) ->
  forall l i s, P s -> P (forEach_from f l i s).
Proof.
  intros Hstep l; induction l as [|x l IH]; intros i s Hs; simpl; auto.
Qed.

(** ** getDocumentLayout: invariants of the placement loop *)

Section Placement.
Variable verticallyOriented : bool.
Variable documentSecondaryExtent : Q.
Variable pagePadding : PagePadding.t.

Let step := placeLayout verticallyOriented documentSecondaryExtent pagePadding.

Lemma placeLayout_groups st layout index :
  exists g, DocState.pageGroups (step st layout index) = DocState.pageGroups st ++ [g] /\
    PageGroup.layout g = layout /\
    leadingEdge verticallyOriented (PageGroup.region g) = DocState.primaryDocPosition st /\
    trailingEdge verticallyOriented (PageGroup.region g) =
      DocState.primaryDocPosition (step st layout index) /\
    secondaryOffset verticallyOriented (PageGroup.region g) =
      (documentSecondaryExtent - secondaryDimOf verticallyOriented layout) / 2.
Proof.
  unfold step, placeLayout, leadingEdge, trailingEdge, secondaryOffset, secondaryDimOf.
  eexists; simpl; repeat split; destruct verticallyOriented; reflexivity.
Qed.

Lemma placeLayout_layouts layouts i st :
  map PageGroup.layout (DocState.pageGroups (forEach_from step layouts i st)) =
  map PageGroup.layout (DocState.pageGroups st) ++ layouts.
Proof.
  revert i st; induction layouts as [|x layouts IH]; intros i st; simpl.
  - now rewrite app_nil_r.
  - rewrite IH. destruct (placeLayout_groups st x i) as [g [Hg [Hl _]]].
    rewrite Hg, map_app. simpl. rewrite Hl, <- app_assoc. reflexivity.
Qed.

(** Consecutive groups share their edge and the last one ends at the cursor. *)
Definition chained (st : DocState.t) : Prop :=
  (forall i g1 g2, nth_error (DocState.pageGroups st) i = Some g1 ->
     nth_error (DocState.pageGroups st) (S i) = Some g2 ->
     trailingEdge verticallyOriented (PageGroup.region g1) =
     leadingEdge verticallyOriented (PageGroup.region g2)) /\
  (forall i g, nth_error (DocState.pageGroups st) i = Some g ->
     S i = length (DocState.pageGroups st) ->
     trailingEdge verticallyOriented (PageGroup.region g) = DocState.primaryDocPosition st).

Lemma placeLayout_chained st layout index :
  chained st -> chained (step st layout index).
Proof.
  intros [Hadj Hlast].
  destruct (placeLayout_groups st layout index) as [g [Hg [_ [Hlead [Htrail _]]]]].
  split.
  - intros i g1 g2 H1 H2. rewrite Hg in H1, H2.
    assert (Hlt : (S i < length (DocState.pageGroups st ++ [g]))%nat).
    { apply nth_error_Some. congruence. }
    rewrite length_app in Hlt; simpl in Hlt.
    destruct (Nat.eq_dec (S i) (length (DocState.pageGroups st))) as [Heq|Hne].
    + rewrite nth_error_app1 in H1 by lia.
      rewrite nth_error_app2 in H2 by lia.
      replace ((S i - length (DocState.pageGroups st))%nat) with 0%nat in H2 by lia.
      simpl in H2. injection H2 as <-.
      rewrite Hlead. exact (Hlast i g1 H1 Heq).
    + rewrite nth_error_app1 in H1 by lia.
      rewrite nth_error_app1 in H2 by lia.
      exact (Hadj i g1 g2 H1 H2).
  - intros i g' H Hlen. rewrite Hg in H, Hlen.
    rewrite length_app in Hlen; simpl in Hlen.
    rewrite nth_error_app2 in H by lia.
    replace ((i - length (DocState.pageGroups st))%nat) with 0%nat in H by lia.
    simpl in H. injection H as <-. exact Htrail.
Qed.

Lemma placeLayout_loop_chained layouts i :
  chained (forEach_from step layouts i (DocState.mk 0 [])).
Proof.
  apply forEach_from_invariant.
  - intros; now apply placeLayout_chained.
  - split; intros i' g H; destruct i'; discriminate.
Qed.

(** Every placed group is centred along the secondary axis. *)
Lemma placeLayout_loop_centred layouts i :
  Forall (fun g => 2 * secondaryOffset verticallyOriented (PageGroup.region g) +
                   secondaryDimOf verticallyOriented (PageGroup.layout g) ==
                   documentSecondaryExtent)
    (DocState.pageGroups (forEach_from step layouts i (DocState.mk 0 []))).
Proof.
  apply (forEach_from_invariant
           (fun st => Forall _ (DocState.pageGroups st))).
  - intros st x j Hst.
    destruct (placeLayout_groups st x j) as [g [Hg [Hl [_ [_ Hsec]]]]].
    rewrite Hg. apply Forall_app; split; [exact Hst|].
    constructor; [|constructor].
    rewrite Hsec, Hl. field.
  - constructor.
Qed.

End Placement.

Lemma getDocumentLayout_inv config res :
  getDocumentLayout config = Some res ->
  exists layouts,
    getLayoutGroups config = Some layouts /\
    let v := Config.verticallyOriented config in
    let E := getExtentAlongSecondaryAxis layouts config in
    let pp := Padding.page (Config.padding config) in
    let st := forEach (placeLayout v E (PagePadding.mk (PagePadding.top pp)
                                                        (PagePadding.left pp)))
                      layouts (DocState.mk 0 []) in
    DocumentLayout.pageGroups res = DocState.pageGroups st /\
    (if v
     then Dims.height (DocumentLayout.dimensions res) =
            DocState.primaryDocPosition st + PagePadding.top pp /\
          Dims.width (DocumentLayout.dimensions res) = E
     else Dims.height (DocumentLayout.dimensions res) = E /\
          Dims.width (DocumentLayout.dimensions res) =
            DocState.primaryDocPosition st + PagePadding.left pp).
Proof.
  unfold getDocumentLayout.
  destruct (getLayoutGroups config) as [layouts|]; [|discriminate].
  intros H. exists layouts; split; [reflexivity|]. simpl.
  destruct (Config.verticallyOriented config); injection H as <-; simpl; auto.
Qed.

Lemma getDocumentLayout_layouts config res :
  getDocumentLayout config = Some res ->
  getLayoutGroups config = Some (map PageGroup.layout (DocumentLayout.pageGroups res)).
Proof.
  intros H. destruct (getDocumentLayout_inv config res H) as [layouts [Hl [Hg _]]].
  rewrite Hg. unfold forEach. rewrite placeLayout_layouts. exact Hl.
Qed.

Lemma Math_max_Qmax a b : Math_max a b == Qmax a b.
Proof.
  unfold Math_max. destruct (Qlt_le_dec a b) as [H|H].
  - rewrite Q.max_r; [reflexivity | now apply Qlt_le_weak].
  - rewrite Q.max_l; [reflexivity | exact H].
Qed.

(** ** A failing callback makes the loops fail *)

Lemma mapM_from_fail {A B : Type} (f : A -> nat -> option B) l :
  forall i k x, nth_error l i = Some x -> f x (k + i)%nat = None -> mapM_from f l k = None.
Proof.
  induction l as [|y l IH]; intros i k x Hi Hf; [destruct i; discriminate|].
  destruct i as [|i]; simpl in Hi |- *.
  - injection Hi as ->. rewrite Nat.add_0_r in Hf. now rewrite Hf.
  - destruct (f y k); [|reflexivity].
    rewrite (IH i (S k) x Hi); [reflexivity|].
    now replace (S k + i)%nat with (k + S i)%nat by lia.
Qed.

Lemma forEachM_from_fail {A St : Type} (f : St -> A -> nat -> option St) l :
  forall i k x s, nth_error l i = Some x -> (forall s', f s' x (k + i)%nat = None) ->
  forEachM_from f l k s = None.
Proof.
  induction l as [|y l IH]; intros i k x s Hi Hf; [destruct i; discriminate|].
  destruct i as [|i]; simpl in Hi |- *.
  - injection Hi as ->. rewrite Nat.add_0_r in Hf. now rewrite Hf.
  - destruct (f s y k); [|reflexivity].
    apply (IH i (S k) x); [exact Hi|].
    now replace (S k + i)%nat with (k + S i)%nat by lia.
Qed.

(** ** Claims *)

(** C5: the regions of consecutive page groups never overlap along the
    primary axis: the trailing edge (bottom, resp. right) of group [i] is
    exactly the leading edge (top, resp. left) of group [i+1]. *)
Theorem getDocumentLayout_regions_adjacent (config : Config.t) (res : DocumentLayout.t)
    (H : getDocumentLayout config = Some res) :
  forall i g1 g2,
    nth_error (DocumentLayout.pageGroups res) i = Some g1 ->
    nth_error (DocumentLayout.pageGroups res) (S i) = Some g2 ->
    trailingEdge (Config.verticallyOriented config) (PageGroup.region g1) =
    leadingEdge (Config.verticallyOriented config) (PageGroup.region g2).
Proof.
  destruct (getDocumentLayout_inv config res H) as [layouts [_ [Hg _]]].
  rewrite Hg. apply placeLayout_loop_chained.
Qed.

Definition cfg_singles_vertical : Config.t :=
  mkConfig [page100x200; page100x200; page100x200] false true false 10 0 5 3 0 4.

Lemma getDocumentLayout_regions_adjacent_witness :
  exists res g1 g2,
    getDocumentLayout cfg_singles_vertical = Some res /\
    nth_error (DocumentLayout.pageGroups res) 1 = Some g1 /\
    nth_error (DocumentLayout.pageGroups res) 2 = Some g2 /\
    Region.bottom (PageGroup.region g1) = Region.top (PageGroup.region g2).
Proof.
  do 3 eexists. split; [reflexivity|]. split; [reflexivity|]. split; [reflexivity|].
  apply (getDocumentLayout_regions_adjacent cfg_singles_vertical _ eq_refl 1); reflexivity.
Defined.

(** C1 (as stated): the primary-axis extent is the last group's trailing
    edge plus the document-level leading padding on that axis. *)
Definition claim_primary_extent_document_padding : Prop :=
  forall config res gs g,
    getDocumentLayout config = Some res ->
    DocumentLayout.pageGroups res = gs ++ [g] ->
    let docPadding := Padding.document (Config.padding config) in
    if Config.verticallyOriented config
    then Dims.height (DocumentLayout.dimensions res) ==
           Region.bottom (PageGroup.region g) + DocPadding.top docPadding
    else Dims.width (DocumentLayout.dimensions res) ==
           Region.right (PageGroup.region g) + DocPadding.left docPadding.

Definition cfg_one_page : Config.t :=
  mkConfig [page100x200] false true false 10 0 5 0 0 0.

(** C1 fails: one 100x200 page, vertical, page padding top 10, document
    padding top 5: the height is 220 = 210 + 10, not 210 + 5. *)
Lemma getDocumentLayout_extent_counterexample :
  ~ claim_primary_extent_document_padding.
Proof.
  unfold claim_primary_extent_document_padding. intros H.
  specialize (H cfg_one_page _ [] _ eq_refl eq_refl).
  vm_compute in H. discriminate H.
Qed.

(** C1 (amended): for a layout with at least one group, the extent along
    the primary axis is the last group's trailing edge plus the page-level
    leading padding on that axis ([padding.page.top] when vertically
    oriented, [padding.page.left] otherwise), and the extent along the
    secondary axis is [getExtentAlongSecondaryAxis] of the groups' layouts. *)
Theorem getDocumentLayout_extent (config : Config.t) (res : DocumentLayout.t)
    (gs : list PageGroup.t) (g : PageGroup.t)
    (H : getDocumentLayout config = Some res)
    (Hlast : DocumentLayout.pageGroups res = gs ++ [g]) :
  let pp := Padding.page (Config.padding config) in
  let E := getExtentAlongSecondaryAxis
             (map PageGroup.layout (DocumentLayout.pageGroups res)) config in
  if Config.verticallyOriented config
  then Dims.height (DocumentLayout.dimensions res) =
         Region.bottom (PageGroup.region g) + PagePadding.top pp /\
       Dims.width (DocumentLayout.dimensions res) = E
  else Dims.width (DocumentLayout.dimensions res) =
         Region.right (PageGroup.region g) + PagePadding.left pp /\
       Dims.height (DocumentLayout.dimensions res) = E.
Proof.
  cbv zeta.
  pose proof (getDocumentLayout_layouts config res H) as Hlay.
  destruct (getDocumentLayout_inv config res H) as [layouts [Hl [Hg Hdim]]].
  rewrite Hlay in Hl. injection Hl as Hl. rewrite Hl.
  set (v := Config.verticallyOriented config) in *.
  set (pp := Padding.page (Config.padding config)) in *.
  set (st := forEach _ layouts _) in *.
  assert (Htrail : trailingEdge v (PageGroup.region g) = DocState.primaryDocPosition st).
  { assert (Hc : chained v st) by apply placeLayout_loop_chained.
    destruct Hc as [_ Hend].
    apply (Hend (length gs)).
    - rewrite <- Hg, Hlast, nth_error_app2 by lia.
      now rewrite Nat.sub_diag.
    - rewrite <- Hg, Hlast, length_app. simpl. lia. }
  unfold trailingEdge in Htrail.
  simpl in Hdim. destruct v; rewrite Htrail; tauto.
Qed.

Lemma getDocumentLayout_extent_witness :
  exists res g,
    getDocumentLayout cfg_one_page = Some res /\
    DocumentLayout.pageGroups res = [] ++ [g] /\
    Dims.height (DocumentLayout.dimensions res) = Region.bottom (PageGroup.region g) + 10.
Proof.
  do 2 eexists. split; [reflexivity|]. split; [reflexivity|].
  exact (proj1 (getDocumentLayout_extent cfg_one_page _ [] _ eq_refl eq_refl)).
Defined.

(** C6 (as stated): twice the secondary offset of a group plus its secondary
    dimension equals the secondary extent minus the document-level secondary
    padding. *)
Definition claim_centring_without_padding : Prop :=
  forall config res g,
    getDocumentLayout config = Some res ->
    In g (DocumentLayout.pageGroups res) ->
    let v := Config.verticallyOriented config in
    2 * secondaryOffset v (PageGroup.region g) + secondaryDimOf v (PageGroup.layout g) ==
    getExtentAlongSecondaryAxis (map PageGroup.layout (DocumentLayout.pageGroups res)) config
    - secondaryPaddingOf config.

(** C6 fails: one 100x200 page, vertical, document padding left 4 and
    right 3: the group's left is 7/2 and 2 * 7/2 + 100 = 107 is the whole
    extent 107, not 107 - 7. *)
Lemma getDocumentLayout_centring_counterexample : ~ claim_centring_without_padding.
Proof.
  unfold claim_centring_without_padding. intros H.
  specialize (H (mkConfig [page100x200] false true false 0 0 0 3 0 4) _ _ eq_refl
                (or_introl eq_refl)).
  vm_compute in H. discriminate H.
Qed.

(** C6 (amended): every group is centred in the whole secondary extent:
    twice its secondary offset (left when vertically oriented, top
    otherwise) plus its secondary dimension equals the secondary extent
    computed by [getExtentAlongSecondaryAxis], document padding included. *)
Theorem getDocumentLayout_centring (config : Config.t) (res : DocumentLayout.t)
    (H : getDocumentLayout config = Some res) :
  forall g, In g (DocumentLayout.pageGroups res) ->
    let v := Config.verticallyOriented config in
    2 * secondaryOffset v (PageGroup.region g) + secondaryDimOf v (PageGroup.layout g) ==
    getExtentAlongSecondaryAxis (map PageGroup.layout (DocumentLayout.pageGroups res)) config.
Proof.
  pose proof (getDocumentLayout_layouts config res H) as Hlay.
  destruct (getDocumentLayout_inv config res H) as [layouts [Hl [Hg _]]].
  rewrite Hlay in Hl. injection Hl as Hl. rewrite Hl.
  apply Forall_forall. rewrite Hg. apply placeLayout_loop_centred.
Qed.

Lemma getDocumentLayout_centring_witness :
  exists res g,
    getDocumentLayout cfg_singles_vertical = Some res /\
    In g (DocumentLayout.pageGroups res) /\
    2 * Region.left (PageGroup.region g) + Layout.width (PageGroup.layout g) == 107.
Proof.
  do 2 eexists. split; [reflexivity|]. split; [left; reflexivity|].
  eapply Qeq_trans;
    [exact (getDocumentLayout_centring cfg_singles_vertical _ eq_refl _ (or_introl eq_refl))
    | vm_compute; reflexivity].
Defined.

(** C7: [getFacingPageGroup] has height [max(leftHeight, rightHeight)];
    vertically oriented, width [2 * max(leftWidth, rightWidth)] with the left
    page at [max - leftWidth] and the right page at [max]; horizontally
    oriented, width [leftWidth + rightWidth] with the pages at [0] and
    [leftWidth]; both pages at top offset [0]. *)
Theorem getFacingPageGroup_spec (leftPage rightPage : IndexedPage.t)
    (verticallyOriented : bool) :
  let g := getFacingPageGroup leftPage rightPage verticallyOriented in
  let lw := IndexedPage.width leftPage in
  let rw := IndexedPage.width rightPage in
  exists o1 o2,
    Layout.pageOffsets g = [o1; o2] /\
    PageOffset.index o1 = IndexedPage.index leftPage /\
    PageOffset.index o2 = IndexedPage.index rightPage /\
    Layout.height g == Qmax (IndexedPage.height leftPage) (IndexedPage.height rightPage) /\
    PageOffset.top o1 == 0 /\ PageOffset.top o2 == 0 /\
    (if verticallyOriented
     then Layout.width g == 2 * Qmax lw rw /\
          PageOffset.left o1 == Qmax lw rw - lw /\
          PageOffset.left o2 == Qmax lw rw
     else Layout.width g == lw + rw /\
          PageOffset.left o1 == 0 /\
          PageOffset.left o2 == lw).
Proof.
  cbv zeta. unfold getFacingPageGroup.
  destruct verticallyOriented; simpl; do 2 eexists;
    (split; [reflexivity|]); simpl;
    (split; [reflexivity|]); (split; [reflexivity|]);
    (split; [apply Math_max_Qmax|]); (split; [reflexivity|]); (split; [reflexivity|]).
  all: repeat split; rewrite ?Math_max_Qmax; ring.
Qed.

(** C8: the [round] option of [getPageDimensions] has no observable effect:
    any two [options] values give the same result, and at a valid zoom level
    the result is the floor of the raw dimensions, an integer. *)
Theorem getPageDimensions_round_irrelevant (pageIndex : nat) (manifest : Manifest.t)
    (zoomLevel : nat) (options options' : option (option bool)) :
  getPageDimensions pageIndex manifest zoomLevel options =
    getPageDimensions pageIndex manifest zoomLevel options' /\
  (forall page pageData,
     nth_error (Manifest.pages manifest) pageIndex = Some page ->
     nth_error (Page.d page) zoomLevel = Some pageData ->
     getPageDimensions pageIndex manifest zoomLevel options =
       Some (Dims.mk (inject_Z (Qfloor (PageData.w pageData)))
                     (inject_Z (Qfloor (PageData.h pageData))))).
Proof.
  assert (Hfloor : forall x, Math_floor (Math_floor x) = Math_floor x).
  { intros x. unfold Math_floor. now rewrite Qfloor_Z. }
  assert (Hall : forall o, getPageDimensions pageIndex manifest zoomLevel o =
            match nth_error (Manifest.pages manifest) pageIndex with
            | None => None
            | Some page =>
                match nth_error (Page.d page) zoomLevel with
                | None => None
                | Some pd => Some (Dims.mk (Math_floor (PageData.w pd))
                                           (Math_floor (PageData.h pd)))
                end
            end).
  { intros o. unfold getPageDimensions.
    destruct (nth_error (Manifest.pages manifest) pageIndex) as [page|]; [|reflexivity].
    destruct (nth_error (Page.d page) zoomLevel) as [pd|]; [|reflexivity].
    destruct (round_of o); [now rewrite !Hfloor | reflexivity]. }
  split.
  - now rewrite !Hall.
  - intros page pd Hp Hd. rewrite Hall, Hp, Hd. reflexivity.
Qed.

Definition manifest_one_page : Manifest.t := Manifest.mk [Page.mk [PageData.mk (201 # 2) 200] true] false.

Lemma getPageDimensions_round_irrelevant_witness :
  getPageDimensions 0 manifest_one_page 0 (Some (Some false)) =
    getPageDimensions 0 manifest_one_page 0 None /\
  getPageDimensions 0 manifest_one_page 0 (Some (Some false)) =
    Some (Dims.mk (inject_Z 100) (inject_Z 200)).
Proof.
  split.
  - exact (proj1 (getPageDimensions_round_irrelevant 0 manifest_one_page 0 _ None)).
  - exact (proj2 (getPageDimensions_round_irrelevant 0 manifest_one_page 0 _ None)
             _ _ eq_refl eq_refl).
Defined.

(** C9: a manifest with no pages is laid out without error: no page groups,
    and dimensions made of padding only ([padding.page.top] along the primary
    axis and the document's left and right padding across it when vertically
    oriented; symmetrically otherwise). *)
Theorem getDocumentLayout_empty (config : Config.t)
    (Hempty : Manifest.pages (Config.manifest config) = []) :
  exists res,
    getDocumentLayout config = Some res /\
    DocumentLayout.pageGroups res = [] /\
    let pp := Padding.page (Config.padding config) in
    let dp := Padding.document (Config.padding config) in
    if Config.verticallyOriented config
    then Dims.height (DocumentLayout.dimensions res) == PagePadding.top pp /\
         Dims.width (DocumentLayout.dimensions res) == DocPadding.left dp + DocPadding.right dp
    else Dims.height (DocumentLayout.dimensions res) == DocPadding.top dp + DocPadding.bottom dp /\
         Dims.width (DocumentLayout.dimensions res) == PagePadding.left pp.
Proof.
  assert (Hl : getLayoutGroups config = Some []).
  { unfold getLayoutGroups, getBookLayoutGroups, getSinglesLayoutGroups, forEachM.
    rewrite Hempty. now destruct (Config.inBookLayout config). }
  unfold getDocumentLayout. rewrite Hl.
  unfold getExtentAlongSecondaryAxis, secondaryPaddingOf. simpl.
  destruct (Config.verticallyOriented config); eexists;
    (split; [reflexivity|]); (split; [reflexivity|]); cbv zeta; simpl; split; ring.
Qed.

Lemma getDocumentLayout_empty_witness :
  Manifest.pages (Config.manifest (mkConfig [] true false true 1 2 3 4 5 6)) = [] /\
  exists res,
    getDocumentLayout (mkConfig [] true false true 1 2 3 4 5 6) = Some res /\
    DocumentLayout.pageGroups res = [] /\
    Dims.height (DocumentLayout.dimensions res) == 3 + 5 /\
    Dims.width (DocumentLayout.dimensions res) == 2.
Proof.
  split; [reflexivity|].
  destruct (getDocumentLayout_empty (mkConfig [] true false true 1 2 3 4 5 6) eq_refl)
    as [res [H1 [H2 H3]]].
  exists res. split; [exact H1|]. split; [exact H2|]. exact H3.
Defined.

(** ** Book layout: which pages end up in which group *)

(** [manifest.paged && !page.paged]: the page is skipped in book layout. *)
Definition skipped (manifest : Manifest.t) (page : Page.t) : bool :=
  Manifest.paged manifest && negb (Page.paged page).

(** Indices (counted from [k]) of the pages of [l] that are not skipped. *)
Fixpoint keptIndices (manifest : Manifest.t) (l : list Page.t) (k : nat) : list nat :=
  match l with
  | [] => []
  | page :: l' =>
      if skipped manifest page then keptIndices manifest l' (S k)
      else k :: keptIndices manifest l' (S k)
  end.

(** Cut a list of indices into consecutive pairs, the last one possibly
    alone. *)
Fixpoint chunk2 (l : list nat) : list (list nat) :=
  match l with
  | a :: b :: l' => [a; b] :: chunk2 l'
  | [a] => [[a]]
  | [] => []
  end.

(** [[k; k+1]; [k+2; k+3]; ...], [j] pairs. *)
Fixpoint pairsFrom (k j : nat) : list (list nat) :=
  match j with
  | O => []
  | S j' => [k; S k] :: pairsFrom (S (S k)) j'
  end.

Definition offsetIndices (layout : Layout.t) : list nat :=
  map PageOffset.index (Layout.pageOffsets layout).

Definition pendingIndices (leftPage : option IndexedPage.t) : list nat :=
  match leftPage with None => [] | Some lp => [IndexedPage.index lp] end.

Lemma getFacingPageGroup_indices leftPage rightPage verticallyOriented :
  offsetIndices (getFacingPageGroup leftPage rightPage verticallyOriented) =
  [IndexedPage.index leftPage; IndexedPage.index rightPage].
Proof. now destruct verticallyOriented. Qed.

Section BookLoop.
Variable manifest : Manifest.t.
Variable zoomLevel : nat.
Variable verticallyOriented : bool.

Lemma bookLoop_indices l k gs leftPage st :
  (verticallyOriented && Nat.eqb k 0) = false ->
  forEachM_from (bookStep manifest zoomLevel verticallyOriented) l k
    (BookState.mk gs leftPage) = Some st ->
  map offsetIndices (flushLeftPage verticallyOriented st) =
  map offsetIndices gs ++ chunk2 (pendingIndices leftPage ++ keptIndices manifest l k).
Proof.
  revert k gs leftPage.
  induction l as [|page l IH]; intros k gs leftPage Hk H.
  - simpl in H. injection H as <-.
    unfold flushLeftPage. destruct leftPage as [lp|]; simpl; rewrite ?map_app, ?app_nil_r;
      reflexivity.
  - simpl in H. unfold bookStep at 1 in H. simpl in H. simpl.
    unfold skipped. destruct (Manifest.paged manifest && negb (Page.paged page)).
    + apply (IH (S k) gs leftPage); [now rewrite andb_false_r|exact H].
    + destruct (getPageDimensions k manifest zoomLevel (Some (Some false))) as [pd|];
        [|discriminate].
      rewrite Hk in H.
      destruct leftPage as [lp|].
      * rewrite (IH (S k) _ None (ltac:(now rewrite andb_false_r)) H).
        rewrite map_app, <- app_assoc. simpl.
        now rewrite getFacingPageGroup_indices.
      * exact (IH (S k) gs (Some (IndexedPage.mk k (Dims.width pd) (Dims.height pd)))
                 (ltac:(now rewrite andb_false_r)) H).
Qed.

End BookLoop.

Lemma getBookLayoutGroups_indices manifest zoomLevel verticallyOriented gs :
  getBookLayoutGroups manifest zoomLevel verticallyOriented = Some gs ->
  map offsetIndices gs =
  if verticallyOriented then
    match Manifest.pages manifest with
    | [] => []
    | page0 :: pages =>
        (if skipped manifest page0 then [] else [[0%nat]]) ++
        chunk2 (keptIndices manifest pages 1)
    end
  else chunk2 (keptIndices manifest (Manifest.pages manifest) 0).
Proof.
  unfold getBookLayoutGroups, forEachM.
  destruct (forEachM_from _ _ 0 _) as [st|] eqn:Hloop; [|discriminate].
  intros H; injection H as <-.
  destruct verticallyOriented eqn:Hv.
  - destruct (Manifest.pages manifest) as [|page0 pages] eqn:Hp.
    + simpl in Hloop. injection Hloop as <-. reflexivity.
    + simpl in Hloop. unfold bookStep at 1 in Hloop. simpl in Hloop.
      unfold skipped. destruct (Manifest.paged manifest && negb (Page.paged page0)).
      * exact (bookLoop_indices manifest zoomLevel true pages 1 [] None _ eq_refl Hloop).
      * destruct (getPageDimensions 0 manifest zoomLevel (Some (Some false)));
          [|discriminate].
        exact (bookLoop_indices manifest zoomLevel true pages 1 _ None _ eq_refl Hloop).
  - exact (bookLoop_indices manifest zoomLevel false _ 0 [] None _ eq_refl Hloop).
Qed.


Lemma concat_chunk2 : forall l, concat (chunk2 l) = l.
Proof.
  fix IH 1. intros [|a [|b l]]; simpl; [reflexivity | reflexivity |].
  now rewrite IH.
Qed.

Lemma getBookLayoutGroups_flat manifest zoomLevel verticallyOriented gs :
  getBookLayoutGroups manifest zoomLevel verticallyOriented = Some gs ->
  concat (map offsetIndices gs) = keptIndices manifest (Manifest.pages manifest) 0.
Proof.
  intros H. rewrite (getBookLayoutGroups_indices _ _ _ _ H).
  destruct verticallyOriented.
  - destruct (Manifest.pages manifest) as [|page0 pages]; [reflexivity|].
    simpl. rewrite concat_app, concat_chunk2.
    now destruct (skipped manifest page0).
  - apply concat_chunk2.
Qed.

Lemma keptIndices_bounds manifest l k i :
  In i (keptIndices manifest l k) ->
  (k <= i)%nat /\
  exists page, nth_error l (i - k) = Some page /\ skipped manifest page = false.
Proof.
  revert k. induction l as [|page l IH]; intros k Hin; simpl in Hin; [contradiction|].
  destruct (skipped manifest page) eqn:Hs.
  - destruct (IH (S k) Hin) as [Hle [p [Hp Hps]]]. split; [lia|].
    exists p. replace (i - k)%nat with (S (i - S k)) by lia. simpl. auto.
  - destruct Hin as [<- | Hin].
    + split; [lia|]. exists page. rewrite Nat.sub_diag. auto.
    + destruct (IH (S k) Hin) as [Hle [p [Hp Hps]]]. split; [lia|].
      exists p. replace (i - k)%nat with (S (i - S k)) by lia. simpl. auto.
Qed.

Lemma keptIndices_sorted manifest l k : StronglySorted Nat.lt (keptIndices manifest l k).
Proof.
  revert k. induction l as [|page l IH]; intros k; simpl; [constructor|].
  destruct (skipped manifest page); [apply IH|].
  constructor; [apply IH|].
  apply Forall_forall. intros i Hin.
  destruct (keptIndices_bounds manifest l (S k) i Hin). lia.
Qed.

Lemma keptIndices_unpaged manifest l k :
  Manifest.paged manifest = false -> keptIndices manifest l k = seq k (length l).
Proof.
  intros Hp. revert k. induction l as [|page l IH]; intros k; simpl; [reflexivity|].
  unfold skipped. rewrite Hp. simpl. now rewrite IH.
Qed.

Lemma chunk2_seq_even j : forall k, chunk2 (seq k (2 * j)) = pairsFrom k j.
Proof.
  induction j as [|j IH]; intros k; [reflexivity|].
  replace (2 * S j)%nat with (S (S (2 * j))) by lia. simpl. now rewrite IH.
Qed.

Lemma chunk2_seq_odd j : forall k,
  chunk2 (seq k (S (2 * j))) = pairsFrom k j ++ [[(k + 2 * j)%nat]].
Proof.
  induction j as [|j IH]; intros k; [simpl; now rewrite Nat.add_0_r|].
  replace (S (2 * S j)) with (S (S (S (2 * j)))) by lia.
  change (seq k (S (S (S (2 * j))))) with (k :: S k :: seq (S (S k)) (S (2 * j))).
  change (chunk2 (k :: S k :: seq (S (S k)) (S (2 * j))))
    with ([k; S k] :: chunk2 (seq (S (S k)) (S (2 * j)))).
  rewrite IH. simpl. do 4 f_equal. lia.
Qed.

Lemma pairsFrom_length k j : length (pairsFrom k j) = j.
Proof. revert k; induction j; intros k; simpl; auto. Qed.

Lemma pairsFrom_consecutive k j :
  Forall (fun p => exists a, p = [a; S a]) (pairsFrom k j).
Proof.
  revert k; induction j as [|j IH]; intros k; simpl; constructor; eauto.
Qed.

(** C10: in book layout the page indices of the groups' page offsets, read
    group after group and within each group, are strictly increasing, and
    every index is that of a page of the manifest that is not skipped by the
    paged rule. *)
Theorem getBookLayoutGroups_indices_increasing (manifest : Manifest.t) (zoomLevel : nat)
    (verticallyOriented : bool) (gs : list Layout.t)
    (H : getBookLayoutGroups manifest zoomLevel verticallyOriented = Some gs) :
  Sorted Nat.lt (concat (map offsetIndices gs)) /\
  forall i, In i (concat (map offsetIndices gs)) ->
    exists page, nth_error (Manifest.pages manifest) i = Some page /\
                 skipped manifest page = false.
Proof.
  rewrite (getBookLayoutGroups_flat _ _ _ _ H). split.
  - apply StronglySorted_Sorted, keptIndices_sorted.
  - intros i Hin. destruct (keptIndices_bounds _ _ _ _ Hin) as [_ [page [Hp Hs]]].
    rewrite Nat.sub_0_r in Hp. eauto.
Qed.

Definition page_unpaged_100x200 : Page.t := Page.mk [PageData.mk 100 200] false.

Definition manifest_paged_cover : Manifest.t :=
  Manifest.mk [page_unpaged_100x200; page100x200; page100x200; page_unpaged_100x200;
               page100x200] true.

Lemma getBookLayoutGroups_indices_increasing_witness :
  getBookLayoutGroups manifest_paged_cover 0%nat true =
    Some (Layout.mk 200 200 [PageOffset.mk 1 0 0; PageOffset.mk 2 0 100] ::
          [Layout.mk 200 200 [PageOffset.mk 4 0 0]]) /\
  Sorted Nat.lt [1; 2; 4]%nat.
Proof.
  split; [reflexivity|].
  exact (proj1 (getBookLayoutGroups_indices_increasing manifest_paged_cover 0%nat true _
                  eq_refl)).
Defined.

(** C3 (as stated): in book mode with [paged = false] and an even number [n]
    of pages, there are [n/2] groups, each of two consecutive pages. *)
Definition claim_even_pairs : Prop :=
  forall manifest zoomLevel verticallyOriented gs,
    Manifest.paged manifest = false ->
    Nat.even (length (Manifest.pages manifest)) = true ->
    getBookLayoutGroups manifest zoomLevel verticallyOriented = Some gs ->
    length gs = (length (Manifest.pages manifest) / 2)%nat /\
    Forall (fun g => exists a, offsetIndices g = [a; S a]) gs.

(** C3 fails in vertical orientation: two pages give two single-page groups
    (the first page is placed alone, the second is flushed alone). *)
Lemma getBookLayoutGroups_even_counterexample : ~ claim_even_pairs.
Proof.
  unfold claim_even_pairs. intros H.
  destruct (H (Manifest.mk [page100x200; page100x200] false) 0%nat true _ eq_refl eq_refl
              eq_refl) as [Hlen _].
  discriminate Hlen.
Qed.

(** C3 (amended): in book mode with [paged = false] and an even number [n]
    of pages: horizontally oriented, there are [n/2] groups, each of two
    consecutive pages; vertically oriented (and [n >= 2]) page 0 is alone,
    then come the pairs [(1,2), ..., (n-3,n-2)] and page [n-1] alone, so
    [n/2 + 1] groups. *)
Theorem getBookLayoutGroups_even_nonpaged (manifest : Manifest.t) (zoomLevel : nat)
    (verticallyOriented : bool) (gs : list Layout.t)
    (Hpaged : Manifest.paged manifest = false)
    (Heven : Nat.even (length (Manifest.pages manifest)) = true)
    (H : getBookLayoutGroups manifest zoomLevel verticallyOriented = Some gs) :
  let n := length (Manifest.pages manifest) in
  if verticallyOriented
  then map offsetIndices gs =
         if Nat.eqb n 0 then []
         else [[0%nat]] ++ pairsFrom 1 (n / 2 - 1) ++ [[(n - 1)%nat]]
  else length gs = (n / 2)%nat /\
       Forall (fun g => exists a, offsetIndices g = [a; S a]) gs.
Proof.
  cbv zeta. pose proof (getBookLayoutGroups_indices _ _ _ _ H) as Hi.
  apply Nat.even_spec in Heven. destruct Heven as [j Hj].
  destruct verticallyOriented.
  - rewrite Hi. destruct (Manifest.pages manifest) as [|page0 pages]; [reflexivity|].
    simpl in Hj. destruct j as [|j]; [lia|].
    assert (Hlen : length pages = S (2 * j)) by lia.
    replace (length (page0 :: pages)) with (2 * S j)%nat by (simpl; lia).
    replace ((2 * S j) / 2)%nat with (S j)
      by (symmetry; rewrite Nat.mul_comm; apply Nat.div_mul; lia).
    replace (S j - 1)%nat with j by lia.
    replace (2 * S j - 1)%nat with (1 + 2 * j)%nat by lia.
    unfold skipped. rewrite Hpaged.
    rewrite keptIndices_unpaged, Hlen, chunk2_seq_odd by exact Hpaged.
    reflexivity.
  - rewrite keptIndices_unpaged, Hj, chunk2_seq_even in Hi by exact Hpaged.
    rewrite Hj, Nat.mul_comm, Nat.div_mul by lia. split.
    + now rewrite <- (length_map offsetIndices gs), Hi, pairsFrom_length.
    + apply (proj1 (Forall_map offsetIndices (fun p => exists a, p = [a; S a]) gs)).
      rewrite Hi. apply pairsFrom_consecutive.
Qed.

Definition manifest_four_unpaged : Manifest.t :=
  Manifest.mk [page100x200; page100x200; page100x200; page100x200] false.

Lemma getBookLayoutGroups_even_nonpaged_witness :
  getBookLayoutGroups manifest_four_unpaged 0%nat false =
    Some [Layout.mk 200 200 [PageOffset.mk 0 0 0; PageOffset.mk 1 0 100];
          Layout.mk 200 200 [PageOffset.mk 2 0 0; PageOffset.mk 3 0 100]] /\
  length [Layout.mk 200 200 [PageOffset.mk 0 0 0; PageOffset.mk 1 0 100];
          Layout.mk 200 200 [PageOffset.mk 2 0 0; PageOffset.mk 3 0 100]] = 2%nat.
Proof.
  split; [reflexivity|].
  exact (proj1 (getBookLayoutGroups_even_nonpaged manifest_four_unpaged 0%nat false _
                  eq_refl eq_refl eq_refl)).
Defined.

(** C4 (as stated): three 100x200 pages, book mode, vertically oriented:
    page 0 alone in a 200x200 group at left offset 100, pages 1 and 2 in one
    200x200 group at offsets 0 and 100, document width 200 plus the left and
    right document padding, and three page groups. *)
Definition claim_three_pages_three_groups : Prop :=
  forall paged pageTop pageLeft docTop docRight docBottom docLeft,
  exists res,
    getDocumentLayout (mkConfig [page100x200; page100x200; page100x200] paged true true
                         pageTop pageLeft docTop docRight docBottom docLeft) = Some res /\
    map PageGroup.layout (DocumentLayout.pageGroups res) =
      [Layout.mk 200 200 [PageOffset.mk 0 0 100];
       Layout.mk 200 200 [PageOffset.mk 1 0 0; PageOffset.mk 2 0 100]] /\
    Dims.width (DocumentLayout.dimensions res) == 200 + docLeft + docRight /\
    length (DocumentLayout.pageGroups res) = 3%nat.

(** C4 fails: pages 1 and 2 share a group, so there are two groups. *)
Lemma getDocumentLayout_three_pages_counterexample : ~ claim_three_pages_three_groups.
Proof.
  unfold claim_three_pages_three_groups. intros H.
  destruct (H false 0 0 0 0 0 0) as [res [Hres [_ [_ Hlen]]]].
  vm_compute in Hres. injection Hres as <-. discriminate Hlen.
Qed.

(** C4 (amended): the same layout with two page groups in total. *)
Theorem getDocumentLayout_three_pages_book (paged : bool)
    (pageTop pageLeft docTop docRight docBottom docLeft : Q) :
  exists res,
    getDocumentLayout (mkConfig [page100x200; page100x200; page100x200] paged true true
                         pageTop pageLeft docTop docRight docBottom docLeft) = Some res /\
    map PageGroup.layout (DocumentLayout.pageGroups res) =
      [Layout.mk 200 200 [PageOffset.mk 0 0 100];
       Layout.mk 200 200 [PageOffset.mk 1 0 0; PageOffset.mk 2 0 100]] /\
    Dims.width (DocumentLayout.dimensions res) == 200 + docLeft + docRight /\
    length (DocumentLayout.pageGroups res) = 2%nat.
Proof.
  set (config := mkConfig _ _ _ _ _ _ _ _ _ _).
  assert (Hl : getLayoutGroups config =
                 Some [Layout.mk 200 200 [PageOffset.mk 0 0 100];
                       Layout.mk 200 200 [PageOffset.mk 1 0 0; PageOffset.mk 2 0 100]]).
  { unfold config. destruct paged; reflexivity. }
  unfold getDocumentLayout. rewrite Hl.
  eexists. split; [reflexivity|]. simpl.
  split; [reflexivity|]. split; [|reflexivity].
  unfold getExtentAlongSecondaryAxis, secondaryPaddingOf. simpl.
  unfold Math_max at 2. simpl. unfold Math_max. simpl. ring.
Qed.

(** C2 (as stated): a page whose dimension table lacks the zoom level makes
    [getPageDimensions] fail and the failure reaches the caller of
    [getDocumentLayout], which returns no layout. *)
Definition claim_missing_zoom_fails : Prop :=
  forall config i page,
    nth_error (Manifest.pages (Config.manifest config)) i = Some page ->
    nth_error (Page.d page) (Config.zoomLevel config) = None ->
    getPageDimensions i (Config.manifest config) (Config.zoomLevel config) None = None /\
    getDocumentLayout config = None.

Definition cfg_unpaged_without_zoom : Config.t :=
  mkConfig [page100x200; Page.mk [] false; page100x200] true true true 0 0 0 0 0 0.

(** C2 fails for a page that book layout skips: in a paged manifest the
    non-paged page 1 has no dimensions at all, yet a layout is returned. *)
Lemma getDocumentLayout_missing_zoom_counterexample : ~ claim_missing_zoom_fails.
Proof.
  unfold claim_missing_zoom_fails. intros H.
  destruct (H cfg_unpaged_without_zoom 1%nat _ eq_refl eq_refl) as [_ Hl].
  vm_compute in Hl. discriminate Hl.
Qed.

(** C2 (amended): a page whose dimension table lacks the zoom level makes
    [getPageDimensions] fail (whatever its options); when the layout reads
    that page, that is in single-page mode, or in book mode unless the page
    is a non-paged page of a paged manifest (skipped unread), the failure
    propagates and [getDocumentLayout] returns no layout at all. *)
Theorem getDocumentLayout_missing_zoom (config : Config.t) (i : nat) (page : Page.t)
    (options : option (option bool))
    (Hpage : nth_error (Manifest.pages (Config.manifest config)) i = Some page)
    (Hzoom : nth_error (Page.d page) (Config.zoomLevel config) = None) :
  getPageDimensions i (Config.manifest config) (Config.zoomLevel config) options = None /\
  (Config.inBookLayout config && skipped (Config.manifest config) page = false ->
   getDocumentLayout config = None).
Proof.
  assert (Hdims : forall o,
            getPageDimensions i (Config.manifest config) (Config.zoomLevel config) o = None).
  { intros o. unfold getPageDimensions. now rewrite Hpage, Hzoom. }
  split; [apply Hdims|]. intros Hread.
  assert (Hl : getLayoutGroups config = None).
  { unfold getLayoutGroups.
    destruct (Config.inBookLayout config); simpl in Hread.
    - unfold getBookLayoutGroups, forEachM.
      rewrite (forEachM_from_fail _ _ i 0 page _ Hpage); [reflexivity|].
      intros s. unfold bookStep. simpl. unfold skipped in Hread. rewrite Hread.
      now rewrite Hdims.
    - unfold getSinglesLayoutGroups.
      apply (mapM_from_fail _ _ i 0 page Hpage). simpl. now rewrite Hdims. }
  unfold getDocumentLayout. now rewrite Hl.
Qed.

Lemma getDocumentLayout_missing_zoom_witness :
  getPageDimensions 1 (Config.manifest cfg_unpaged_without_zoom) 0 None = None /\
  getDocumentLayout (mkConfig [page100x200; Page.mk [] false; page100x200]
                       true true false 0 0 0 0 0 0) = None.
Proof.
  split.
  - exact (proj1 (getDocumentLayout_missing_zoom cfg_unpaged_without_zoom 1 _ None
                    eq_refl eq_refl)).
  - exact (proj2 (getDocumentLayout_missing_zoom
                    (mkConfig [page100x200; Page.mk [] false; page100x200]
                       true true false 0 0 0 0 0 0) 1 _ None eq_refl eq_refl) eq_refl).
Defined.

(** * Further properties of the layout code *)

(** ** What the loops produce *)

Lemma mapM_from_spec {A B : Type} (f : A -> nat -> option B) l :
  forall k ys, mapM_from f l k = Some ys ->
  length ys = length l /\
  forall i y, nth_error ys i = Some y ->
    exists x, nth_error l i = Some x /\ f x (k + i)%nat = Some y.
Proof.
  induction l as [|x l IH]; intros k ys H; simpl in H.
  - injection H as <-. split; [reflexivity|]. intros [|i] y Hy; discriminate.
  - destruct (f x k) as [y|] eqn:Hf; [|discriminate].
    destruct (mapM_from f l (S k)) as [ys'|] eqn:Hl; [|discriminate].
    injection H as <-. destruct (IH (S k) ys' Hl) as [Hlen Hnth].
    split; [simpl; now rewrite Hlen|].
    intros [|i] y' Hy; simpl in Hy.
    + injection Hy as <-. exists x. rewrite Nat.add_0_r. auto.
    + destruct (Hnth i y' Hy) as [x' [Hx' Hf']]. exists x'. split; [exact Hx'|].
      now replace (k + S i)%nat with (S k + i)%nat by lia.
Qed.

Lemma mapM_from_None {A B : Type} (f : A -> nat -> option B) l :
  forall k, mapM_from f l k = None ->
  exists i x, nth_error l i = Some x /\ f x (k + i)%nat = None.
Proof.
  induction l as [|x l IH]; intros k H; simpl in H; [discriminate|].
  destruct (f x k) as [y|] eqn:Hf.
  - destruct (mapM_from f l (S k)) eqn:Hl; [discriminate|].
    destruct (IH (S k) Hl) as [i [x' [Hx Hf']]]. exists (S i), x'. split; [exact Hx|].
    now replace (k + S i)%nat with (S k + i)%nat by lia.
  - exists 0%nat, x. rewrite Nat.add_0_r. auto.
Qed.

Lemma forEachM_from_None {A St : Type} (f : St -> A -> nat -> option St) l :
  forall k s, forEachM_from f l k s = None ->
  exists i x s', nth_error l i = Some x /\ f s' x (k + i)%nat = None.
Proof.
  induction l as [|x l IH]; intros k s H; simpl in H; [discriminate|].
  destruct (f s x k) as [s1|] eqn:Hf.
  - destruct (IH (S k) s1 H) as [i [x' [s' [Hx Hf']]]]. exists (S i), x', s'.
    split; [exact Hx|]. now replace (k + S i)%nat with (S k + i)%nat by lia.
  - exists 0%nat, x, s. rewrite Nat.add_0_r. auto.
Qed.

Lemma getPageDimensions_None pageIndex manifest zoomLevel options :
  getPageDimensions pageIndex manifest zoomLevel options = None ->
  nth_error (Manifest.pages manifest) pageIndex = None \/
  exists page, nth_error (Manifest.pages manifest) pageIndex = Some page /\
               nth_error (Page.d page) zoomLevel = None.
Proof.
  unfold getPageDimensions.
  destruct (nth_error (Manifest.pages manifest) pageIndex) as [page|]; [|now left].
  destruct (nth_error (Page.d page) zoomLevel) eqn:Hz; [|intros _; right; now exists page].
  destruct (round_of options); discriminate.
Qed.

(** Single-page mode: one group per page, in page order; group [i] has the
    rounded dimensions of page [i] and one page offset [{index: i, top: 0,
    left: 0}]. *)
Theorem getSinglesLayoutGroups_spec (manifest : Manifest.t) (zoomLevel : nat)
    (gs : list Layout.t) (H : getSinglesLayoutGroups manifest zoomLevel = Some gs) :
  length gs = length (Manifest.pages manifest) /\
  forall i g, nth_error gs i = Some g ->
    exists pageDims,
      getPageDimensions i manifest zoomLevel None = Some pageDims /\
      g = Layout.mk (Dims.height pageDims) (Dims.width pageDims) [PageOffset.mk i 0 0].
Proof.
  destruct (mapM_from_spec _ _ 0 gs H) as [Hlen Hnth]. split; [exact Hlen|].
  intros i g Hg. destruct (Hnth i g Hg) as [x [_ Hf]]. simpl in Hf.
  destruct (getPageDimensions i manifest zoomLevel None) as [d|]; [|discriminate].
  injection Hf as <-. eauto.
Qed.

Lemma getSinglesLayoutGroups_spec_witness :
  getSinglesLayoutGroups manifest_four_unpaged 0%nat =
    Some [Layout.mk 200 100 [PageOffset.mk 0 0 0]; Layout.mk 200 100 [PageOffset.mk 1 0 0];
          Layout.mk 200 100 [PageOffset.mk 2 0 0]; Layout.mk 200 100 [PageOffset.mk 3 0 0]] /\
  length [Layout.mk 200 100 [PageOffset.mk 0 0 0]; Layout.mk 200 100 [PageOffset.mk 1 0 0];
          Layout.mk 200 100 [PageOffset.mk 2 0 0]; Layout.mk 200 100 [PageOffset.mk 3 0 0]] =
    length (Manifest.pages manifest_four_unpaged).
Proof.
  split; [reflexivity|].
  exact (proj1 (getSinglesLayoutGroups_spec manifest_four_unpaged 0 _ eq_refl)).
Defined.

(** [getDocumentLayout] fails exactly when some page lacks the requested
    zoom level and is read by the layout: every page in single-page mode,
    every page but the non-paged pages of a paged manifest in book mode. *)
Theorem getDocumentLayout_fails_iff (config : Config.t) :
  getDocumentLayout config = None <->
  exists i page,
    nth_error (Manifest.pages (Config.manifest config)) i = Some page /\
    nth_error (Page.d page) (Config.zoomLevel config) = None /\
    (Config.inBookLayout config && skipped (Config.manifest config) page) = false.
Proof.
  set (m := Config.manifest config). set (z := Config.zoomLevel config).
  assert (Hdoc : getDocumentLayout config = None <-> getLayoutGroups config = None).
  { unfold getDocumentLayout. destruct (getLayoutGroups config); [|tauto].
    split; intros H; [|discriminate].
    destruct (Config.verticallyOriented config); discriminate. }
  rewrite Hdoc. split.
  - unfold getLayoutGroups. fold m z.
    destruct (Config.inBookLayout config); simpl.
    + unfold getBookLayoutGroups, forEachM.
      destruct (forEachM_from _ _ 0 _) eqn:Hl; [discriminate|]. intros _.
      destruct (forEachM_from_None _ _ 0 _ Hl) as [i [page [s [Hp Hf]]]].
      simpl in Hf. unfold bookStep in Hf.
      destruct (Manifest.paged m && negb (Page.paged page)) eqn:Hs; [discriminate|].
      destruct (getPageDimensions i m z (Some (Some false))) eqn:Hd.
      { destruct (Config.verticallyOriented config && Nat.eqb i 0);
          [discriminate|destruct (BookState.leftPage s); discriminate]. }
      destruct (getPageDimensions_None _ _ _ _ Hd) as [Hn|[page' [Hp' Hz]]];
        [unfold m in *; congruence|].
      rewrite Hp in Hp'. injection Hp' as <-. exists i, page. auto.
    + intros Hl. destruct (mapM_from_None _ _ 0 Hl) as [i [page [Hp Hf]]].
      simpl in Hf.
      destruct (getPageDimensions i m z None) eqn:Hd; [discriminate|].
      destruct (getPageDimensions_None _ _ _ _ Hd) as [Hn|[page' [Hp' Hz]]];
        [unfold m in *; congruence|].
      rewrite Hp in Hp'. injection Hp' as <-. exists i, page. auto.
  - intros [i [page [Hp [Hz Hread]]]].
    assert (Hdims : forall o, getPageDimensions i m z o = None).
    { intros o. unfold getPageDimensions. now rewrite Hp, Hz. }
    unfold getLayoutGroups. fold m z.
    destruct (Config.inBookLayout config); simpl in Hread.
    + unfold getBookLayoutGroups, forEachM.
      rewrite (forEachM_from_fail _ _ i 0 page _ Hp); [reflexivity|].
      intros s. unfold bookStep. simpl. unfold skipped in Hread. rewrite Hread.
      now rewrite Hdims.
    + apply (mapM_from_fail _ _ i 0 page Hp). simpl. now rewrite Hdims.
Qed.

(** ** Book layout: page coverage and group shapes *)

Lemma keptIndices_complete manifest l k i page :
  (k <= i)%nat -> nth_error l (i - k) = Some page -> skipped manifest page = false ->
  In i (keptIndices manifest l k).
Proof.
  revert k. induction l as [|p l IH]; intros k Hle Hp Hs; [destruct (i - k)%nat; discriminate|].
  simpl. destruct (Nat.eq_dec i k) as [->|Hne].
  - rewrite Nat.sub_diag in Hp. simpl in Hp. injection Hp as ->. rewrite Hs. now left.
  - replace (i - k)%nat with (S (i - S k)) in Hp by lia. simpl in Hp.
    destruct (skipped manifest p); [|right]; apply IH; auto; lia.
Qed.

Lemma StronglySorted_lt_NoDup (l : list nat) : StronglySorted Nat.lt l -> NoDup l.
Proof.
  induction 1 as [|a l _ IH Hall]; constructor; [|exact IH].
  intros Hin. rewrite Forall_forall in Hall. specialize (Hall a Hin). lia.
Qed.

(** Book layout reads every page that is not skipped exactly once: the page
    indices of all page offsets are pairwise distinct, and an index occurs
    iff it is the index of a page of the manifest that is not a non-paged
    page of a paged manifest. *)
Theorem getBookLayoutGroups_covers_pages (manifest : Manifest.t) (zoomLevel : nat)
    (verticallyOriented : bool) (gs : list Layout.t)
    (H : getBookLayoutGroups manifest zoomLevel verticallyOriented = Some gs) :
  NoDup (concat (map offsetIndices gs)) /\
  forall i, In i (concat (map offsetIndices gs)) <->
    exists page, nth_error (Manifest.pages manifest) i = Some page /\
                 skipped manifest page = false.
Proof.
  rewrite (getBookLayoutGroups_flat _ _ _ _ H). split.
  - apply StronglySorted_lt_NoDup, keptIndices_sorted.
  - intros i; split.
    + intros Hin. destruct (keptIndices_bounds _ _ _ _ Hin) as [_ [page [Hp Hs]]].
      rewrite Nat.sub_0_r in Hp. eauto.
    + intros [page [Hp Hs]]. apply (keptIndices_complete _ _ 0 i page); [lia| |exact Hs].
      now rewrite Nat.sub_0_r.
Qed.

Lemma getBookLayoutGroups_covers_pages_witness :
  getBookLayoutGroups manifest_paged_cover 0%nat false =
    Some [Layout.mk 200 200 [PageOffset.mk 1 0 0; PageOffset.mk 2 0 100];
          Layout.mk 200 100 [PageOffset.mk 4 0 0]] /\
  NoDup [1; 2; 4]%nat.
Proof.
  split; [reflexivity|].
  exact (proj1 (getBookLayoutGroups_covers_pages manifest_paged_cover 0%nat false _
                  eq_refl)).
Defined.

(** Book layout without skipping and with an odd number [n] of pages:
    horizontally oriented, the pairs [(0,1), ..., (n-3,n-2)] and then page
    [n-1] alone; vertically oriented, page 0 alone and then the pairs
    [(1,2), ..., (n-2,n-1)], with no page left over. *)
Theorem getBookLayoutGroups_odd_nonpaged (manifest : Manifest.t) (zoomLevel : nat)
    (verticallyOriented : bool) (gs : list Layout.t)
    (Hpaged : Manifest.paged manifest = false)
    (Hodd : Nat.odd (length (Manifest.pages manifest)) = true)
    (H : getBookLayoutGroups manifest zoomLevel verticallyOriented = Some gs) :
  let n := length (Manifest.pages manifest) in
  map offsetIndices gs =
    if verticallyOriented then [[0%nat]] ++ pairsFrom 1 (n / 2)
    else pairsFrom 0 (n / 2) ++ [[(n - 1)%nat]].
Proof.
  cbv zeta. pose proof (getBookLayoutGroups_indices _ _ _ _ H) as Hi.
  apply Nat.odd_spec in Hodd. destruct Hodd as [j Hj].
  assert (Hdiv : (length (Manifest.pages manifest) / 2 = j)%nat).
  { rewrite Hj. replace (2 * j + 1)%nat with (1 + j * 2)%nat by lia.
    rewrite Nat.div_add by lia. reflexivity. }
  rewrite Hdiv, Hi. destruct verticallyOriented.
  - destruct (Manifest.pages manifest) as [|page0 pages]; [simpl in Hj; lia|].
    simpl in Hj. unfold skipped. rewrite Hpaged.
    rewrite keptIndices_unpaged by exact Hpaged.
    replace (length pages) with (2 * j)%nat by lia.
    now rewrite chunk2_seq_even.
  - rewrite keptIndices_unpaged, Hj by exact Hpaged.
    replace (2 * j + 1)%nat with (S (2 * j)) by lia.
    rewrite chunk2_seq_odd. do 3 f_equal. lia.
Qed.

Definition manifest_three_unpaged : Manifest.t :=
  Manifest.mk [page100x200; page100x200; page100x200] false.

Lemma getBookLayoutGroups_odd_nonpaged_witness :
  getBookLayoutGroups manifest_three_unpaged 0%nat true =
    Some [Layout.mk 200 200 [PageOffset.mk 0 0 100];
          Layout.mk 200 200 [PageOffset.mk 1 0 0; PageOffset.mk 2 0 100]] /\
  map offsetIndices [Layout.mk 200 200 [PageOffset.mk 0 0 100];
                     Layout.mk 200 200 [PageOffset.mk 1 0 0; PageOffset.mk 2 0 100]] =
    [[0%nat]] ++ pairsFrom 1 1.
Proof.
  split; [reflexivity|].
  exact (getBookLayoutGroups_odd_nonpaged manifest_three_unpaged 0%nat true _
           eq_refl eq_refl eq_refl).
Defined.

Lemma chunk2_shape : forall l k c,
  nth_error (chunk2 l) k = Some c ->
  length c = 2%nat \/ (length c = 1%nat /\ S k = length (chunk2 l)).
Proof.
  fix IH 1. intros [|a [|b l]] k c Hc; simpl in Hc.
  - destruct k; discriminate.
  - destruct k as [|k]; [|destruct k; discriminate].
    injection Hc as <-. right. auto.
  - destruct k as [|k].
    + injection Hc as <-. now left.
    + destruct (IH l k c Hc) as [H2|[H1 Hlen]]; [now left|].
      right. simpl. auto.
Qed.

(** Every book-layout group holds one or two pages, and a group holding a
    single page is the first or the last group. *)
Theorem getBookLayoutGroups_group_sizes (manifest : Manifest.t) (zoomLevel : nat)
    (verticallyOriented : bool) (gs : list Layout.t)
    (H : getBookLayoutGroups manifest zoomLevel verticallyOriented = Some gs) :
  forall k g, nth_error gs k = Some g ->
    length (Layout.pageOffsets g) = 2%nat \/
    (length (Layout.pageOffsets g) = 1%nat /\ (k = 0%nat \/ S k = length gs)).
Proof.
  intros k g Hg.
  assert (Hk : nth_error (map offsetIndices gs) k = Some (offsetIndices g))
    by now rewrite nth_error_map, Hg.
  assert (Hlen : length (Layout.pageOffsets g) = length (offsetIndices g))
    by (unfold offsetIndices; now rewrite length_map).
  rewrite Hlen, <- (length_map offsetIndices gs).
  rewrite (getBookLayoutGroups_indices _ _ _ _ H) in Hk |- *.
  destruct verticallyOriented.
  - destruct (Manifest.pages manifest) as [|page0 pages]; [destruct k; discriminate|].
    destruct (skipped manifest page0); simpl in Hk |- *.
    + destruct (chunk2_shape _ _ _ Hk) as [H2|[H1 Hl]]; auto.
    + destruct k as [|k].
      * injection Hk as <-. right. auto.
      * destruct (chunk2_shape _ _ _ Hk) as [H2|[H1 Hl]]; auto.
  - destruct (chunk2_shape _ _ _ Hk) as [H2|[H1 Hl]]; auto.
Qed.

Lemma getBookLayoutGroups_group_sizes_witness :
  getBookLayoutGroups manifest_paged_cover 0%nat false =
    Some [Layout.mk 200 200 [PageOffset.mk 1 0 0; PageOffset.mk 2 0 100];
          Layout.mk 200 100 [PageOffset.mk 4 0 0]] /\
  (length [PageOffset.mk 4 0 0] = 2%nat \/
   (length [PageOffset.mk 4 0 0] = 1%nat /\ (1%nat = 0%nat \/ 2%nat = 2%nat))).
Proof.
  split; [reflexivity|].
  exact (getBookLayoutGroups_group_sizes manifest_paged_cover 0%nat false _ eq_refl
           1 _ eq_refl).
Defined.

(** ** Every page lies inside its group *)

Lemma getPageDimensions_options pageIndex manifest zoomLevel options options' :
  getPageDimensions pageIndex manifest zoomLevel options =
  getPageDimensions pageIndex manifest zoomLevel options'.
Proof.
  assert (Hfloor : forall x, Math_floor (Math_floor x) = Math_floor x).
  { intros x. unfold Math_floor. now rewrite Qfloor_Z. }
  unfold getPageDimensions.
  destruct (nth_error (Manifest.pages manifest) pageIndex) as [page|]; [|reflexivity].
  destruct (nth_error (Page.d page) zoomLevel); [|reflexivity].
  destruct (round_of options), (round_of options'); now rewrite ?Hfloor.
Qed.

Lemma Math_floor_nonneg x : 0 <= x -> 0 <= Math_floor x.
Proof.
  intros Hx. unfold Math_floor. change 0 with (inject_Z 0).
  rewrite <- Zle_Qle. change 0%Z with (Qfloor 0). now apply Qfloor_resp_le.
Qed.

Lemma Math_max_ge_l a b : a <= Math_max a b.
Proof. unfold Math_max. destruct (Qlt_le_dec a b); lra. Qed.

Lemma Math_max_ge_r a b : b <= Math_max a b.
Proof. unfold Math_max. destruct (Qlt_le_dec a b); lra. Qed.

Section Containment.
Variable manifest : Manifest.t.
Variable zoomLevel : nat.

(** Page offset [o] places its page inside [layout]. *)
Definition offsetFits (layout : Layout.t) (o : PageOffset.t) : Prop :=
  exists pageDims,
    getPageDimensions (PageOffset.index o) manifest zoomLevel None = Some pageDims /\
    PageOffset.top o = 0 /\ Dims.height pageDims <= Layout.height layout /\
    0 <= PageOffset.left o /\
    PageOffset.left o + Dims.width pageDims <= Layout.width layout.

Definition layoutFits (layout : Layout.t) : Prop :=
  forall o, In o (Layout.pageOffsets layout) -> offsetFits layout o.

Definition pendingFits (lp : IndexedPage.t) : Prop :=
  getPageDimensions (IndexedPage.index lp) manifest zoomLevel None =
    Some (Dims.mk (IndexedPage.width lp) (IndexedPage.height lp)) /\
  0 <= IndexedPage.width lp /\ 0 <= IndexedPage.height lp.

Hypothesis nonneg : forall page pageData,
  In page (Manifest.pages manifest) -> In pageData (Page.d page) ->
  0 <= PageData.w pageData /\ 0 <= PageData.h pageData.

Lemma getPageDimensions_nonneg i options pageDims :
  getPageDimensions i manifest zoomLevel options = Some pageDims ->
  0 <= Dims.width pageDims /\ 0 <= Dims.height pageDims.
Proof.
  unfold getPageDimensions.
  destruct (nth_error (Manifest.pages manifest) i) as [page|] eqn:Hp; [|discriminate].
  destruct (nth_error (Page.d page) zoomLevel) as [pd|] eqn:Hd; [|discriminate].
  destruct (nonneg page pd (nth_error_In _ _ Hp) (nth_error_In _ _ Hd)) as [Hw Hh].
  destruct (round_of options); intros H; injection H as <-; simpl;
    split; repeat apply Math_floor_nonneg; assumption.
Qed.

Lemma getFacingPageGroup_fits lp rp verticallyOriented :
  pendingFits lp -> pendingFits rp ->
  layoutFits (getFacingPageGroup lp rp verticallyOriented).
Proof.
  intros [Hl [Hlw Hlh]] [Hr [Hrw Hrh]].
  pose proof (Math_max_ge_l (IndexedPage.height lp) (IndexedPage.height rp)).
  pose proof (Math_max_ge_r (IndexedPage.height lp) (IndexedPage.height rp)).
  pose proof (Math_max_ge_l (IndexedPage.width lp) (IndexedPage.width rp)).
  pose proof (Math_max_ge_r (IndexedPage.width lp) (IndexedPage.width rp)).
  unfold getFacingPageGroup.
  destruct verticallyOriented; intros o [<-|[<-|[]]]; simpl;
    [exists (Dims.mk (IndexedPage.width lp) (IndexedPage.height lp))
    |exists (Dims.mk (IndexedPage.width rp) (IndexedPage.height rp))
    |exists (Dims.mk (IndexedPage.width lp) (IndexedPage.height lp))
    |exists (Dims.mk (IndexedPage.width rp) (IndexedPage.height rp))];
    simpl; (split; [assumption|]); (split; [reflexivity|]); repeat split; lra.
Qed.

Definition bookFits (st : BookState.t) : Prop :=
  (forall g, In g (BookState.groups st) -> layoutFits g) /\
  (forall lp, BookState.leftPage st = Some lp -> pendingFits lp).

Lemma bookStep_fits verticallyOriented st page index st' :
  bookFits st ->
  bookStep manifest zoomLevel verticallyOriented st page index = Some st' ->
  bookFits st'.
Proof.
  intros [Hgs Hlp]. unfold bookStep.
  destruct (Manifest.paged manifest && negb (Page.paged page)).
  { intros H; injection H as <-. split; assumption. }
  destruct (getPageDimensions index manifest zoomLevel (Some (Some false)))
    as [pd|] eqn:Hd; [|discriminate].
  destruct (getPageDimensions_nonneg _ _ _ Hd) as [Hw Hh].
  rewrite (getPageDimensions_options _ _ _ _ None) in Hd.
  assert (Hpd : pendingFits (IndexedPage.mk index (Dims.width pd) (Dims.height pd))).
  { unfold pendingFits. simpl. rewrite Hd. now destruct pd. }
  destruct (verticallyOriented && Nat.eqb index 0) eqn:Hv.
  - intros H; injection H as <-. split; [|exact Hlp].
    intros g Hg. simpl in Hg. apply in_app_or in Hg. destruct Hg as [Hg|[<-|[]]].
    + now apply Hgs.
    + intros o [<-|[]]. apply andb_true_iff in Hv. destruct Hv as [_ Hi].
      apply Nat.eqb_eq in Hi. subst index.
      exists pd. simpl. split; [exact Hd|]. repeat split; lra.
  - destruct (BookState.leftPage st) as [lp|] eqn:Hleft; intros H; injection H as <-.
    + split; [|discriminate]. intros g Hg. simpl in Hg.
      apply in_app_or in Hg. destruct Hg as [Hg|[<-|[]]]; [now apply Hgs|].
      apply getFacingPageGroup_fits; [now apply Hlp|exact Hpd].
    + split; [exact Hgs|]. intros lp' Hlp'. simpl in Hlp'. injection Hlp' as <-.
      exact Hpd.
Qed.

Lemma bookLoop_fits verticallyOriented l k st st' :
  bookFits st ->
  forEachM_from (bookStep manifest zoomLevel verticallyOriented) l k st = Some st' ->
  bookFits st'.
Proof.
  revert k st. induction l as [|page l IH]; intros k st Hst H; simpl in H.
  - now injection H as <-.
  - destruct (bookStep manifest zoomLevel verticallyOriented st page k) as [s1|] eqn:Hs;
      [|discriminate].
    exact (IH (S k) s1 (bookStep_fits _ _ _ _ _ Hst Hs) H).
Qed.

End Containment.

(** Every layout group of the document, in single-page or book mode, places
    each of its pages inside itself: for a page offset [o] of group [g], the
    page's dimensions [d] (as [getPageDimensions] resolves them) satisfy
    [o.top = 0], [d.height <= g.height], [0 <= o.left] and
    [o.left + d.width <= g.width], provided the manifest's raw dimensions are
    non-negative. *)
Theorem getLayoutGroups_pages_inside (config : Config.t) (gs : list Layout.t)
    (Hnonneg : forall page pageData,
       In page (Manifest.pages (Config.manifest config)) -> In pageData (Page.d page) ->
       0 <= PageData.w pageData /\ 0 <= PageData.h pageData)
    (H : getLayoutGroups config = Some gs) :
  forall g o, In g gs -> In o (Layout.pageOffsets g) ->
    exists pageDims,
      getPageDimensions (PageOffset.index o) (Config.manifest config)
        (Config.zoomLevel config) None = Some pageDims /\
      PageOffset.top o = 0 /\ Dims.height pageDims <= Layout.height g /\
      0 <= PageOffset.left o /\
      PageOffset.left o + Dims.width pageDims <= Layout.width g.
Proof.
  set (m := Config.manifest config) in *. set (z := Config.zoomLevel config) in *.
  enough (Hall : forall g, In g gs -> layoutFits m z g)
    by (intros g o Hg Ho; exact (Hall g Hg o Ho)).
  unfold getLayoutGroups in H. fold m z in H.
  destruct (Config.inBookLayout config).
  - unfold getBookLayoutGroups, forEachM in H.
    destruct (forEachM_from _ _ 0 _) as [st|] eqn:Hl; [|discriminate].
    injection H as <-.
    assert (Hst : bookFits m z st).
    { apply (bookLoop_fits m z Hnonneg (Config.verticallyOriented config) (Manifest.pages m) 0
               (BookState.mk [] None));
        [|exact Hl].
      split; [intros g []|discriminate]. }
    destruct Hst as [Hgs Hlp]. unfold flushLeftPage.
    destruct (BookState.leftPage st) as [lp|] eqn:Hleft; [|exact Hgs].
    intros g Hg. apply in_app_or in Hg. destruct Hg as [Hg|[<-|[]]]; [now apply Hgs|].
    destruct (Hlp lp eq_refl) as [Hd [Hw Hh]].
    intros o [<-|[]]. exists (Dims.mk (IndexedPage.width lp) (IndexedPage.height lp)).
    simpl. split; [exact Hd|].
    destruct (Config.verticallyOriented config); simpl; repeat split; lra.
  - unfold getSinglesLayoutGroups in H.
    destruct (mapM_from_spec _ _ 0 gs H) as [_ Hnth].
    intros g Hg. destruct (In_nth_error _ _ Hg) as [i Hi].
    destruct (Hnth i g Hi) as [x [_ Hf]]. simpl in Hf.
    destruct (getPageDimensions i m z None) as [pd|] eqn:Hd; [|discriminate].
    injection Hf as <-. intros o [<-|[]]. exists pd. simpl.
    split; [exact Hd|]. repeat split; lra.
Qed.

Lemma getLayoutGroups_pages_inside_witness :
  (forall page pageData,
     In page (Manifest.pages (Config.manifest cfg_unpaged_without_zoom)) ->
     In pageData (Page.d page) ->
     0 <= PageData.w pageData /\ 0 <= PageData.h pageData) /\
  exists pageDims,
    getPageDimensions 0 (Config.manifest cfg_unpaged_without_zoom) 0 None = Some pageDims /\
    PageOffset.top (PageOffset.mk 0 0 100) = 0 /\
    Dims.height pageDims <= Layout.height (Layout.mk 200 200 [PageOffset.mk 0 0 100]) /\
    0 <= PageOffset.left (PageOffset.mk 0 0 100) /\
    PageOffset.left (PageOffset.mk 0 0 100) + Dims.width pageDims <=
      Layout.width (Layout.mk 200 200 [PageOffset.mk 0 0 100]).
Proof.
  assert (Hnn : forall page pageData,
     In page (Manifest.pages (Config.manifest cfg_unpaged_without_zoom)) ->
     In pageData (Page.d page) ->
     0 <= PageData.w pageData /\ 0 <= PageData.h pageData).
  { simpl. intros page pd Hp Hd.
    destruct Hp as [<-|[<-|[<-|[]]]]; simpl in Hd; try contradiction;
      destruct Hd as [<-|[]]; simpl; split; discriminate. }
  split; [exact Hnn|].
  exact (getLayoutGroups_pages_inside cfg_unpaged_without_zoom
           [Layout.mk 200 200 [PageOffset.mk 0 0 100];
            Layout.mk 200 200 [PageOffset.mk 2 0 0]] Hnn eq_refl
           (Layout.mk 200 200 [PageOffset.mk 0 0 100]) (PageOffset.mk 0 0 100)
           (or_introl eq_refl) (or_introl eq_refl)).
Defined.

(** ** getDocumentLayout: extents and records of the placed groups *)

(** [layout[primaryDim]]: the dimension along the axis of scrolling. *)
Definition primaryDimOf (verticallyOriented : bool) (layout : Layout.t) : Q :=
  if verticallyOriented then Layout.height layout else Layout.width layout.

(** The page padding added before each group along the primary axis. *)
Definition primaryPaddingOf (verticallyOriented : bool) (pagePadding : PagePadding.t) : Q :=
  if verticallyOriented then PagePadding.top pagePadding else PagePadding.left pagePadding.

(** The document's extent along the primary axis. *)
Definition primaryExtentOf (verticallyOriented : bool) (dims : Dims.t) : Q :=
  if verticallyOriented then Dims.height dims else Dims.width dims.

Lemma inject_Z_of_nat_S n :
  inject_Z (Z.of_nat (S n)) == inject_Z (Z.of_nat n) + 1.
Proof.
  rewrite Nat2Z.inj_succ, <- Z.add_1_r, inject_Z_plus. reflexivity.
Qed.

Lemma placeLayout_loop_position verticallyOriented E pagePadding layouts :
  forall i st,
    DocState.primaryDocPosition
      (forEach_from (placeLayout verticallyOriented E pagePadding) layouts i st) ==
    DocState.primaryDocPosition st +
      inject_Z (Z.of_nat (length layouts)) * primaryPaddingOf verticallyOriented pagePadding +
      fold_right Qplus 0 (map (primaryDimOf verticallyOriented) layouts).
Proof.
  induction layouts as [|x layouts IH]; intros i st; cbn [forEach_from length map fold_right].
  - unfold inject_Z. ring.
  - rewrite IH, inject_Z_of_nat_S.
    unfold placeLayout, primaryPaddingOf, primaryDimOf.
    destruct verticallyOriented; simpl; ring.
Qed.

(** The secondary extent bounds every layout and is reached by one of them
    or by the starting value [0]. *)
Lemma fold_max_bounds {A : Type} (f : A -> Q) l :
  forall acc,
    acc <= fold_left (fun m x => Math_max (f x) m) l acc /\
    forall x, In x l -> f x <= fold_left (fun m x => Math_max (f x) m) l acc.
Proof.
  induction l as [|y l IH]; intros acc; simpl.
  - split; [apply Qle_refl | intros x []].
  - destruct (IH (Math_max (f y) acc)) as [Hacc Hin]. split.
    + eapply Qle_trans; [apply Math_max_ge_r | exact Hacc].
    + intros x [<-|Hx]; [|now apply Hin].
      eapply Qle_trans; [apply Math_max_ge_l | exact Hacc].
Qed.

Lemma fold_max_attained {A : Type} (f : A -> Q) l :
  forall acc,
    fold_left (fun m x => Math_max (f x) m) l acc = acc \/
    exists x, In x l /\ fold_left (fun m x => Math_max (f x) m) l acc = f x.
Proof.
  induction l as [|y l IH]; intros acc; simpl; [now left|].
  destruct (IH (Math_max (f y) acc)) as [Heq|[x [Hx Heq]]].
  - rewrite Heq. unfold Math_max.
    destruct (Qlt_le_dec (f y) acc); [now left|].
    right. exists y. auto.
  - right. exists x. auto.
Qed.

(** Records pushed by the placement loop: the [index] of a group is its
    position, its [padding] is the page padding, and its region spans the
    page padding plus the layout on both axes. *)
Definition groupRecord (pagePadding : PagePadding.t) (k : nat) (g : PageGroup.t) : Prop :=
  PageGroup.index g = k /\ PageGroup.padding g = pagePadding /\
  Region.bottom (PageGroup.region g) =
    Region.top (PageGroup.region g) + PagePadding.top pagePadding +
      Layout.height (PageGroup.layout g) /\
  Region.right (PageGroup.region g) =
    Region.left (PageGroup.region g) + PagePadding.left pagePadding +
      Layout.width (PageGroup.layout g).

Lemma placeLayout_loop_records verticallyOriented E pagePadding layouts :
  forall st,
    (forall k g, nth_error (DocState.pageGroups st) k = Some g -> groupRecord pagePadding k g) ->
    forall k g,
      nth_error (DocState.pageGroups
        (forEach_from (placeLayout verticallyOriented E pagePadding) layouts
           (length (DocState.pageGroups st)) st)) k = Some g ->
      groupRecord pagePadding k g.
Proof.
  induction layouts as [|x layouts IH]; intros st Hst; simpl; [exact Hst|].
  set (st' := placeLayout verticallyOriented E pagePadding st x
                (length (DocState.pageGroups st))).
  assert (Hlen : S (length (DocState.pageGroups st)) = length (DocState.pageGroups st')).
  { unfold st', placeLayout. simpl. rewrite length_app. simpl. lia. }
  rewrite Hlen. apply IH.
  intros k g Hk. unfold st', placeLayout in Hk. simpl in Hk.
  destruct (Nat.lt_ge_cases k (length (DocState.pageGroups st))) as [Hlt|Hge].
  - rewrite nth_error_app1 in Hk by exact Hlt. exact (Hst k g Hk).
  - rewrite nth_error_app2 in Hk by exact Hge.
    destruct (k - length (DocState.pageGroups st))%nat as [|j] eqn:Hj.
    + simpl in Hk. injection Hk as <-.
      unfold groupRecord; simpl. repeat split; try reflexivity. lia.
    + destruct j; discriminate.
Qed.

(** Along the primary axis the document measures one page padding more than
    there are groups, plus the sum of the groups' primary dimensions:
    [(n + 1) * padding.page.top + sum of heights] when vertically oriented,
    [(n + 1) * padding.page.left + sum of widths] otherwise. *)
Theorem getDocumentLayout_primary_extent (config : Config.t) (res : DocumentLayout.t)
    (H : getDocumentLayout config = Some res) :
  let v := Config.verticallyOriented config in
  let p := primaryPaddingOf v (Padding.page (Config.padding config)) in
  primaryExtentOf v (DocumentLayout.dimensions res) ==
    inject_Z (Z.of_nat (S (length (DocumentLayout.pageGroups res)))) * p +
    fold_right Qplus 0
      (map (fun g => primaryDimOf v (PageGroup.layout g)) (DocumentLayout.pageGroups res)).
Proof.
  cbv zeta.
  pose proof (getDocumentLayout_layouts config res H) as Hlay.
  destruct (getDocumentLayout_inv config res H) as [layouts [Hl [_ Hdim]]].
  rewrite Hlay in Hl. injection Hl as Hl.
  rewrite <- map_map, Hl.
  rewrite <- (length_map PageGroup.layout (DocumentLayout.pageGroups res)), Hl.
  rewrite inject_Z_of_nat_S.
  unfold primaryExtentOf. simpl in Hdim. unfold forEach in Hdim.
  set (pp := Padding.page (Config.padding config)) in *.
  set (pos := DocState.primaryDocPosition (forEach_from _ layouts 0 _)) in Hdim.
  assert (Hpos : pos == inject_Z (Z.of_nat (length layouts)) *
                   primaryPaddingOf (Config.verticallyOriented config) pp +
                 fold_right Qplus 0 (map (primaryDimOf (Config.verticallyOriented config)) layouts)).
  { unfold pos. rewrite placeLayout_loop_position. simpl.
    unfold primaryPaddingOf. destruct (Config.verticallyOriented config); simpl; ring. }
  unfold primaryPaddingOf in *.
  destruct (Config.verticallyOriented config); destruct Hdim as [Hh Hw];
    [rewrite Hh | rewrite Hw]; rewrite Hpos; ring.
Qed.

Lemma getDocumentLayout_primary_extent_witness :
  exists res,
    getDocumentLayout cfg_singles_vertical = Some res /\
    Dims.height (DocumentLayout.dimensions res) == 4 * 10 + 600.
Proof.
  eexists. split; [reflexivity|].
  eapply Qeq_trans;
    [exact (getDocumentLayout_primary_extent cfg_singles_vertical _ eq_refl)
    | vm_compute; reflexivity].
Defined.



(** When some group has a non-negative secondary dimension, the widest group
    fills the secondary extent up to the document padding: its secondary
    dimension plus the document's secondary padding is the whole extent, and
    twice its secondary offset is that padding. *)
Theorem getDocumentLayout_widest_group (config : Config.t) (res : DocumentLayout.t)
    (g0 : PageGroup.t)
    (H : getDocumentLayout config = Some res)
    (Hg0 : In g0 (DocumentLayout.pageGroups res))
    (Hnonneg : 0 <= secondaryDimOf (Config.verticallyOriented config) (PageGroup.layout g0)) :
  let v := Config.verticallyOriented config in
  let E := getExtentAlongSecondaryAxis
             (map PageGroup.layout (DocumentLayout.pageGroups res)) config in
  exists g, In g (DocumentLayout.pageGroups res) /\
    secondaryDimOf v (PageGroup.layout g) + secondaryPaddingOf config == E /\
    2 * secondaryOffset v (PageGroup.region g) == secondaryPaddingOf config.
Proof.
  cbv zeta.
  pose proof (getDocumentLayout_layouts config res H) as Hlay.
  destruct (getDocumentLayout_inv config res H) as [layouts [Hl [Hgs _]]].
  rewrite Hlay in Hl. injection Hl as Hl.
  set (v := Config.verticallyOriented config) in *.
  set (pp := Padding.page (Config.padding config)) in *.
  assert (Hcentre : forall g, In g (DocumentLayout.pageGroups res) ->
            2 * secondaryOffset v (PageGroup.region g) + secondaryDimOf v (PageGroup.layout g) ==
            getExtentAlongSecondaryAxis layouts config).
  { intros g Hg.
    pose proof (placeLayout_loop_centred v (getExtentAlongSecondaryAxis layouts config)
                  (PagePadding.mk (PagePadding.top pp) (PagePadding.left pp)) layouts 0) as Hall.
    rewrite Forall_forall in Hall. apply Hall. unfold forEach in Hgs. rewrite <- Hgs. exact Hg. }
  assert (Hfill : forall g, In g (DocumentLayout.pageGroups res) ->
            secondaryDimOf v (PageGroup.layout g) + secondaryPaddingOf config ==
            getExtentAlongSecondaryAxis layouts config ->
            exists g, In g (DocumentLayout.pageGroups res) /\
              secondaryDimOf v (PageGroup.layout g) + secondaryPaddingOf config ==
              getExtentAlongSecondaryAxis (map PageGroup.layout (DocumentLayout.pageGroups res))
                config /\
              2 * secondaryOffset v (PageGroup.region g) == secondaryPaddingOf config).
  { intros g Hg Heq. exists g. rewrite Hl. split; [exact Hg|]. split; [exact Heq|].
    specialize (Hcentre g Hg). lra. }
  destruct (fold_max_bounds (secondaryDimOf v) layouts 0) as [_ Hbound].
  destruct (fold_max_attained (secondaryDimOf v) layouts 0) as [H0|[x [Hx Hmax]]].
  - apply (Hfill g0 Hg0).
    assert (Hx0 : In (PageGroup.layout g0) layouts) by (rewrite <- Hl; now apply in_map).
    specialize (Hbound _ Hx0). unfold getExtentAlongSecondaryAxis.
    fold v. rewrite H0 in Hbound |- *. lra.
  - rewrite <- Hl in Hx. apply in_map_iff in Hx. destruct Hx as [g [<- Hg]].
    apply (Hfill g Hg). unfold getExtentAlongSecondaryAxis. fold v. rewrite Hmax. lra.
Qed.

Lemma getDocumentLayout_widest_group_witness :
  exists res g0,
    getDocumentLayout cfg_singles_vertical = Some res /\
    In g0 (DocumentLayout.pageGroups res) /\
    0 <= secondaryDimOf (Config.verticallyOriented cfg_singles_vertical) (PageGroup.layout g0) /\
    exists g, In g (DocumentLayout.pageGroups res) /\
      2 * secondaryOffset (Config.verticallyOriented cfg_singles_vertical) (PageGroup.region g)
        == secondaryPaddingOf cfg_singles_vertical.
Proof.
  do 2 eexists. split; [reflexivity|]. split; [left; reflexivity|].
  split; [vm_compute; discriminate|].
  destruct (getDocumentLayout_widest_group cfg_singles_vertical _ _ eq_refl
              (or_introl eq_refl) ltac:(vm_compute; discriminate))
    as [g [Hg [_ Hoff]]].
  exists g. split; [exact Hg | exact Hoff].
Defined.

(** The [k]-th placed group has [index = k], carries the page padding as its
    [padding], and its region is the page padding plus the layout on each
    axis ([bottom = top + padding.page.top + height],
    [right = left + padding.page.left + width]); the groups' layouts are the
    layout groups, in order. *)
Theorem getDocumentLayout_group_records (config : Config.t) (res : DocumentLayout.t)
    (H : getDocumentLayout config = Some res) :
  getLayoutGroups config = Some (map PageGroup.layout (DocumentLayout.pageGroups res)) /\
  forall k g, nth_error (DocumentLayout.pageGroups res) k = Some g ->
    groupRecord (Padding.page (Config.padding config)) k g.
Proof.
  split; [exact (getDocumentLayout_layouts config res H)|].
  destruct (getDocumentLayout_inv config res H) as [layouts [_ [Hgs _]]].
  intros k g Hk. rewrite Hgs in Hk.
  set (pp := Padding.page (Config.padding config)) in *.
  replace pp with (PagePadding.mk (PagePadding.top pp) (PagePadding.left pp))
    by (destruct pp; reflexivity).
  apply (placeLayout_loop_records (Config.verticallyOriented config)
           (getExtentAlongSecondaryAxis layouts config)
           (PagePadding.mk (PagePadding.top pp) (PagePadding.left pp))
           layouts (DocState.mk 0 [])); [|exact Hk].
  intros k' g' Hk'. destruct k'; discriminate.
Qed.

Lemma getDocumentLayout_group_records_witness :
  exists res g,
    getDocumentLayout cfg_singles_vertical = Some res /\
    nth_error (DocumentLayout.pageGroups res) 2 = Some g /\
    PageGroup.index g = 2%nat.
Proof.
  do 2 eexists. split; [reflexivity|]. split; [reflexivity|].
  exact (proj1 (proj2 (getDocumentLayout_group_records cfg_singles_vertical _ eq_refl) 2%nat _
                  eq_refl)).
Defined.

(** ** getBookLayoutGroups: the spine of a vertically oriented opening *)

Section Spine.
Variable manifest : Manifest.t.
Variable zoomLevel : nat.

(** Page offset [o] of [layout] ends at, or starts from, the vertical centre
    line of the group. *)
Definition offsetOnSpine (layout : Layout.t) (o : PageOffset.t) : Prop :=
  exists pageDims,
    getPageDimensions (PageOffset.index o) manifest zoomLevel None = Some pageDims /\
    (PageOffset.left o + Dims.width pageDims == Layout.width layout / 2 \/
     PageOffset.left o == Layout.width layout / 2).

Definition layoutOnSpine (layout : Layout.t) : Prop :=
  forall o, In o (Layout.pageOffsets layout) -> offsetOnSpine layout o.

Definition pendingDims (lp : IndexedPage.t) : Prop :=
  getPageDimensions (IndexedPage.index lp) manifest zoomLevel None =
    Some (Dims.mk (IndexedPage.width lp) (IndexedPage.height lp)).

Definition bookOnSpine (st : BookState.t) : Prop :=
  (forall g, In g (BookState.groups st) -> layoutOnSpine g) /\
  (forall lp, BookState.leftPage st = Some lp -> pendingDims lp).

Lemma getFacingPageGroup_spine lp rp :
  pendingDims lp -> pendingDims rp -> layoutOnSpine (getFacingPageGroup lp rp true).
Proof.
  intros Hl Hr. unfold getFacingPageGroup. simpl.
  intros o [<-|[<-|[]]]; simpl.
  - exists (Dims.mk (IndexedPage.width lp) (IndexedPage.height lp)).
    split; [exact Hl|left]. simpl. field.
  - exists (Dims.mk (IndexedPage.width rp) (IndexedPage.height rp)).
    split; [exact Hr|right]. simpl. field.
Qed.

Lemma bookStep_spine st page index st' :
  bookOnSpine st ->
  bookStep manifest zoomLevel true st page index = Some st' ->
  bookOnSpine st'.
Proof.
  intros [Hgs Hlp]. unfold bookStep.
  destruct (Manifest.paged manifest && negb (Page.paged page)).
  { intros H; injection H as <-. split; assumption. }
  destruct (getPageDimensions index manifest zoomLevel (Some (Some false)))
    as [pd|] eqn:Hd; [|discriminate].
  rewrite (getPageDimensions_options _ _ _ _ None) in Hd.
  assert (Hpd : pendingDims (IndexedPage.mk index (Dims.width pd) (Dims.height pd))).
  { unfold pendingDims. simpl. rewrite Hd. now destruct pd. }
  destruct (true && Nat.eqb index 0) eqn:Hv.
  - intros H; injection H as <-. split; [|exact Hlp].
    intros g Hg. simpl in Hg. apply in_app_or in Hg. destruct Hg as [Hg|[<-|[]]].
    + now apply Hgs.
    + intros o [<-|[]]. simpl in Hv. apply Nat.eqb_eq in Hv. subst index.
      exists pd. simpl. split; [exact Hd|right]. field.
  - destruct (BookState.leftPage st) as [lp|] eqn:Hleft; intros H; injection H as <-.
    + split; [|discriminate]. intros g Hg. simpl in Hg.
      apply in_app_or in Hg. destruct Hg as [Hg|[<-|[]]]; [now apply Hgs|].
      apply getFacingPageGroup_spine; [now apply Hlp|exact Hpd].
    + split; [exact Hgs|]. intros lp' Hlp'. simpl in Hlp'. injection Hlp' as <-.
      exact Hpd.
Qed.

Lemma bookLoop_spine l k st st' :
  bookOnSpine st ->
  forEachM_from (bookStep manifest zoomLevel true) l k st = Some st' ->
  bookOnSpine st'.
Proof.
  revert k st. induction l as [|page l IH]; intros k st Hst H; simpl in H.
  - now injection H as <-.
  - destruct (bookStep manifest zoomLevel true st page k) as [s1|] eqn:Hs; [|discriminate].
    exact (IH (S k) s1 (bookStep_spine _ _ _ _ Hst Hs) H).
Qed.

End Spine.

(** In book mode with vertical orientation, every page of every group
    touches the group's vertical centre line (half its width): a page either
    ends there (a left page: [left + width = groupWidth / 2]) or starts
    there (a right page: [left = groupWidth / 2]); this holds for openings,
    for the first page placed alone and for a final flushed left page. *)
Theorem getBookLayoutGroups_vertical_spine (manifest : Manifest.t) (zoomLevel : nat)
    (gs : list Layout.t)
    (H : getBookLayoutGroups manifest zoomLevel true = Some gs) :
  forall g o, In g gs -> In o (Layout.pageOffsets g) ->
    exists pageDims,
      getPageDimensions (PageOffset.index o) manifest zoomLevel None = Some pageDims /\
      (PageOffset.left o + Dims.width pageDims == Layout.width g / 2 \/
       PageOffset.left o == Layout.width g / 2).
Proof.
  enough (Hall : forall g, In g gs -> layoutOnSpine manifest zoomLevel g)
    by (intros g o Hg Ho; exact (Hall g Hg o Ho)).
  unfold getBookLayoutGroups, forEachM in H.
  destruct (forEachM_from _ _ 0 _) as [st|] eqn:Hl; [|discriminate].
  injection H as <-.
  assert (Hst : bookOnSpine manifest zoomLevel st).
  { apply (bookLoop_spine manifest zoomLevel (Manifest.pages manifest) 0
             (BookState.mk [] None)); [|exact Hl].
    split; [intros g []|discriminate]. }
  destruct Hst as [Hgs Hlp]. unfold flushLeftPage.
  destruct (BookState.leftPage st) as [lp|] eqn:Hleft; [|exact Hgs].
  intros g Hg. apply in_app_or in Hg. destruct Hg as [Hg|[<-|[]]]; [now apply Hgs|].
  intros o [<-|[]]. exists (Dims.mk (IndexedPage.width lp) (IndexedPage.height lp)).
  split; [exact (Hlp lp eq_refl)|left]. simpl. field.
Qed.

Lemma getBookLayoutGroups_vertical_spine_witness :
  exists gs,
    getBookLayoutGroups manifest_four_unpaged 0 true = Some gs /\
    exists pageDims,
      getPageDimensions 3 manifest_four_unpaged 0 None = Some pageDims /\
      (PageOffset.left (PageOffset.mk 3 0 0) + Dims.width pageDims ==
         Layout.width (Layout.mk 200 200 [PageOffset.mk 3 0 0]) / 2 \/
       PageOffset.left (PageOffset.mk 3 0 0) ==
         Layout.width (Layout.mk 200 200 [PageOffset.mk 3 0 0]) / 2).
Proof.
  eexists. split; [reflexivity|].
  exact (getBookLayoutGroups_vertical_spine manifest_four_unpaged 0 _ eq_refl
           (Layout.mk 200 200 [PageOffset.mk 3 0 0]) (PageOffset.mk 3 0 0)
           (or_intror (or_intror (or_introl eq_refl))) (or_introl eq_refl)).
Defined.

(** ** getPageDimensions: whole-number dimensions *)

(** A resolved page size is the raw size of the page at that zoom level
    rounded down to whole numbers: each dimension is an integer [n] with
    [n <= raw < n + 1], whatever the options. *)
Theorem getPageDimensions_whole (pageIndex : nat) (manifest : Manifest.t)
    (zoomLevel : nat) (options : option (option bool)) (pageDims : Dims.t)
    (H : getPageDimensions pageIndex manifest zoomLevel options = Some pageDims) :
  exists page pageData zw zh,
    nth_error (Manifest.pages manifest) pageIndex = Some page /\
    nth_error (Page.d page) zoomLevel = Some pageData /\
    Dims.width pageDims = inject_Z zw /\ Dims.height pageDims = inject_Z zh /\
    inject_Z zw <= PageData.w pageData < inject_Z zw + 1 /\
    inject_Z zh <= PageData.h pageData < inject_Z zh + 1.
Proof.
  rewrite (getPageDimensions_options _ _ _ _ (Some (Some false))) in H.
  unfold getPageDimensions in H.
  destruct (nth_error (Manifest.pages manifest) pageIndex) as [page|] eqn:Hp;
    [|discriminate].
  destruct (nth_error (Page.d page) zoomLevel) as [pd|] eqn:Hd; [|discriminate].
  simpl in H. injection H as <-.
  exists page, pd, (Qfloor (PageData.w pd)), (Qfloor (PageData.h pd)).
  unfold Math_floor. cbn [Dims.width Dims.height].
  repeat split; try assumption; try reflexivity; try apply Qfloor_le;
    (eapply Qlt_le_trans; [apply Qlt_floor | rewrite inject_Z_plus; apply Qle_refl]).
Qed.

Lemma getPageDimensions_whole_witness :
  exists pageDims,
    getPageDimensions 0 manifest_one_page 0 None = Some pageDims /\
    exists page pageData zw zh,
      nth_error (Manifest.pages manifest_one_page) 0 = Some page /\
      nth_error (Page.d page) 0 = Some pageData /\
      Dims.width pageDims = inject_Z zw /\ Dims.height pageDims = inject_Z zh /\
      inject_Z zw <= PageData.w pageData < inject_Z zw + 1 /\
      inject_Z zh <= PageData.h pageData < inject_Z zh + 1.
Proof.
  eexists. split; [reflexivity|].
  exact (getPageDimensions_whole 0 manifest_one_page 0 None _ eq_refl).
Defined.
